(** * ResConv: the DOCX/PDF resume converter (converter.py)

    A shallow embedding of [converter.py]: the path arithmetic of
    [pathlib] that the program relies on, an idealised file store, the
    external converters as oracles of an environment, and the three
    functions [convert_docx_to_pdf], [convert_pdf_to_docx] and [main]
    written in a small state-and-exception monad that records every
    observable call in a trace.

    Modelling conventions.
    - Strings are byte strings; [lower] lowers the ASCII letters, which is
      what [str.lower] does on ASCII text.
    - A [Path] is a pure POSIX path: an absolute flag and its components.
      [suffix] and [with_suffix] follow CPython 3.8 to 3.13.
    - The file store maps paths of regular files to their contents and keeps
      a set of directories.  [rename] follows POSIX on that store: it moves a
      file or a directory with all that is below it, and refuses what POSIX
      refuses (a file onto a directory, a directory onto a file or onto a
      directory that is not empty, anything to a place below itself).
      [mkdir] is modelled where it succeeds; [FS.mkdir_blocked] tells when
      the real call raises instead (a regular file stands at the directory or
      above it), and the statements about the order of the tiers and about
      the rename assume that it does not.  Failures that the store cannot
      express (permissions, a full disk) are outside the model.
    - [google.colab.files.upload()] also saves what was uploaded in the
      working directory; the model leaves the store alone there, so the store
      of a run that goes through the prompt is to be read as the store with
      the uploads already saved.
    - [docx2pdf], [pdf2docx], the office-suite process and [shutil.which]
      are fields of [Env]; nothing is assumed about them except where a
      statement says so.
    - The installation of LibreOffice that the module performs when it is
      imported on Linux (lines 14 to 25) happens before any call; it is
      modelled on its own as [module_import], and the conversion run by the
      web form of [app.py] as [App.form]. *)

From Stdlib Require Import ZArith Ascii String List.
From stdpp Require Import base decidable countable gmap strings list.

Local Open Scope string_scope.
Local Open Scope Z_scope.

(** ** Strings *)

Module Str.

Definition lower_ascii (c : ascii) : ascii :=
  let n := nat_of_ascii c in
  if ((65 <=? n)%nat && (n <=? 90)%nat)%bool then ascii_of_nat (n + 32) else c.

Fixpoint lower (s : string) : string :=
  match s with
  | EmptyString => EmptyString
  | String c s' => String (lower_ascii c) (lower s')
  end.

(** [s.rfind(c)]: the index of the last occurrence, [None] for Python's -1. *)
Fixpoint rfind (c : ascii) (s : string) : option nat :=
  match s with
  | EmptyString => None
  | String a s' =>
      match rfind c s' with
      | Some i => Some (S i)
      | None => if Ascii.eqb a c then Some 0%nat else None
      end
  end.

(** [s[i:]] and [s[:i]]. *)
Definition from (i : nat) (s : string) : string :=
  String.substring i (String.length s - i) s.

Definition upto (i : nat) (s : string) : string := String.substring 0 i s.

(** [needle in s]. *)
Definition contains (needle s : string) : bool :=
  match String.index 0 needle s with Some _ => true | None => false end.

Definition startswith (p s : string) : bool := String.prefix p s.

Definition is_empty (s : string) : bool :=
  match s with EmptyString => true | _ => false end.

(** [s.split("/")]; [acc] is the component read so far. *)
Fixpoint split_slash (acc : string) (s : string) : list string :=
  match s with
  | EmptyString => [acc]
  | String c s' =>
      if Ascii.eqb c "/" then acc :: split_slash EmptyString s'
      else split_slash (acc +:+ String c EmptyString) s'
  end.

(** [sep.join(l)]. *)
Definition join (sep : string) (l : list string) : string := String.concat sep l.

End Str.

(** ** Paths ([pathlib.PurePosixPath]) *)

Record Path := mkPath { absolute : bool; parts : list string }.

Global Instance Path_eq_dec : EqDecision Path.
Proof. solve_decision. Defined.

Global Program Instance Path_countable : Countable Path :=
inj_countable' (fun p => (absolute p, parts p)) (fun t => mkPath t.1 t.2) _.
Next Obligation. by intros []. Qed.

Module PathOps.

(** [Path(s)]: split at the separators; empty components and ["."] vanish.
    (A leading double slash, which POSIX keeps apart, is read as one.) *)
Definition of_string (s : string) : Path :=
  mkPath (Str.startswith "/" s)
         (filter (fun c => c <> "" /\ c <> ".") (Str.split_slash "" s)).

(** [str(p)]. *)
Definition str (p : Path) : string :=
  match absolute p, parts p with
  | false, [] => "."
  | false, l => Str.join "/" l
  | true, l => "/" +:+ Str.join "/" l
  end.

(** [p.name]: the last component, empty for the root and for ["."]. *)
Definition name (p : Path) : string := List.last (parts p) "".

(** [p.parent]. *)
Definition parent (p : Path) : Path :=
  mkPath (absolute p) (removelast (parts p)).

(** The suffix of a file name: [name[i:]] for [i = name.rfind(".")] when
    [0 < i < len(name) - 1], empty otherwise. *)
Definition suffix_of_name (n : string) : string :=
  match Str.rfind "." n with
  | Some i =>
      if ((0 <? i)%nat && (i <? String.length n - 1)%nat)%bool
      then Str.from i n else ""
  | None => ""
  end.

(** [p.suffix]. *)
Definition suffix (p : Path) : string := suffix_of_name (name p).

(** [p / n] for a single component [n] (here always the [name] of a path). *)
Definition child (p : Path) (n : string) : Path :=
  mkPath (absolute p) (parts p ++ [n]).

End PathOps.

(** ** Exceptions and outcomes *)

Inductive Exn :=
| ValueError (msg : string)
| RuntimeError (msg : string)
| FileNotFoundError (p : Path)
| IsADirectoryError (p q : Path)
| NotADirectoryError (p q : Path)
| OSError (errno : string) (p q : Path)
| CalledProcessError (returncode : Z) (cmd : list string)
| LibraryError (msg : string).

Global Instance Exn_eq_dec : EqDecision Exn.
Proof. solve_decision. Defined.

(** How a call ends: it returns, it raises, or it is still waiting in the
    upload prompt because no further upload is scripted. *)
Inductive Outcome (A : Type) :=
| Return (a : A)
| Raise (e : Exn)
| Pending.

Arguments Return {A} a.
Arguments Raise {A} e.
Arguments Pending {A}.

Module PathExn.

(** [p.with_suffix(s)], with the three [ValueError]s of pathlib. *)
Definition with_suffix (p : Path) (s : string) : Exn + Path :=
  if Str.contains "/" s then inl (ValueError ("Invalid suffix '" +:+ s +:+ "'"))
  else if (negb (Str.is_empty s) && negb (Str.startswith "." s)
           || String.eqb s ".")%bool
  then inl (ValueError ("Invalid suffix '" +:+ s +:+ "'"))
  else
    let name := PathOps.name p in
    if Str.is_empty name
    then inl (ValueError ("PosixPath('" +:+ PathOps.str p +:+ "') has an empty name"))
    else
      let old_suffix := PathOps.suffix p in
      let name' :=
        if Str.is_empty old_suffix then name +:+ s
        else Str.upto (String.length name - String.length old_suffix) name +:+ s in
      inr (mkPath (absolute p) (removelast (parts p) ++ [name'])).

End PathExn.

(** ** The file store *)

Record World := mkWorld {
  files : gmap Path string;
  dirs : gset Path
}.

Module FS.

(** [p.exists()]. *)
Definition path_exists (p : Path) (w : World) : bool :=
  bool_decide (is_Some (files w !! p)) || bool_decide (p ∈ dirs w).

(** The directory and every ancestor of it, nearest last. *)
Fixpoint ancestors_of (abs : bool) (rev_parts : list string) : list Path :=
  match rev_parts with
  | [] => [mkPath abs []]
  | _ :: rest => ancestors_of abs rest ++ [mkPath abs (rev rev_parts)]
  end.

Definition with_ancestors (d : Path) : list Path :=
  ancestors_of (absolute d) (rev (parts d)).

(** [d.mkdir(parents=True, exist_ok=True)] where it succeeds: the directory
    and its missing ancestors are there afterwards. *)
Definition mkdir_parents (d : Path) (w : World) : World :=
  mkWorld (files w) (dirs w ∪ list_to_set (with_ancestors d)).

(** When the real call raises instead ([FileExistsError] for a regular file
    at [d], [NotADirectoryError] for one above it). *)
Definition mkdir_blocked (d : Path) (w : World) : bool :=
  existsb (fun p => bool_decide (is_Some (files w !! p))) (with_ancestors d).

Fixpoint starts_with (d p : list string) : bool :=
  match d, p with
  | [], _ => true
  | x :: d', y :: p' => String.eqb x y && starts_with d' p'
  | _ :: _, [] => false
  end.

(** [p] is [d] or lies below it. *)
Definition below (d p : Path) : bool :=
  Bool.eqb (absolute d) (absolute p) && starts_with (parts d) (parts p).

(** The path of [p], an entry at or below [a], once [a] has become [b]. *)
Definition rebase (a b p : Path) : Path :=
  mkPath (absolute b) (parts b ++ drop (length (parts a)) (parts p)).

(** The directory [d] holds something. *)
Definition has_entries (d : Path) (w : World) : bool :=
  negb (bool_decide (filter (fun kv => below d kv.1 = true /\ kv.1 <> d) (files w) = ∅))
  || negb (bool_decide (filter (fun p => below d p = true /\ p <> d) (dirs w) = ∅)).

(** The store once the directory [a], with all below it, has become [b]. *)
Definition move_tree (a b : Path) (w : World) : World :=
  mkWorld
    (list_to_map ((fun kv => (rebase a b kv.1, kv.2))
                    <$> map_to_list (filter (fun kv => below a kv.1 = true) (files w)))
       ∪ filter (fun kv => below a kv.1 = false) (files w))
    (set_map (rebase a b) (filter (fun p => below a p = true) (dirs w))
       ∪ filter (fun p => below a p = false) (dirs w)).

(** [a.rename(b)] on POSIX.  A regular file replaces a regular file at [b]
    and is refused by a directory there and by a target below itself; a
    directory moves with all below it, replaces an empty directory at [b],
    and is refused by a target below itself, by a regular file and by a
    directory that holds something.  The directory that [b] is to be in is
    taken to be there: the program renames within one directory. *)
Definition rename (a b : Path) (w : World) : Exn + World :=
  if bool_decide (a = b)
  then if path_exists a w then inr w else inl (FileNotFoundError a)
  else
    match files w !! a with
    | Some c =>
        if below a b then inl (NotADirectoryError a b)
        else if bool_decide (b ∈ dirs w) then inl (IsADirectoryError a b)
        else inr (mkWorld (<[b := c]> (delete a (files w))) (dirs w))
    | None =>
        if bool_decide (a ∈ dirs w)
        then
          if below a b then inl (OSError "Invalid argument" a b)
          else if bool_decide (is_Some (files w !! b)) then inl (NotADirectoryError a b)
          else if (bool_decide (b ∈ dirs w) && has_entries b w)%bool
          then inl (OSError "Directory not empty" a b)
          else inr (move_tree a b w)
        else inl (FileNotFoundError a)
    end.

End FS.

(** ** Observable calls, the environment and the monad *)

(** One entry per call that leaves the program: printing, the file store,
    the converters, the child process, the upload prompt. *)
Inductive Event :=
| Print (line : string)
| Mkdir (d : Path)
| Docx2pdf (src dst : string)
| Which (cmd : string)
| Run (argv : list string) (check capture_output : bool)
| Exists (p : Path)
| Rename (a b : Path)
| Pdf2docxOpen (src : string)
| Pdf2docxConvert (dst : string)
| Pdf2docxClose
| Upload.

Global Instance Event_eq_dec : EqDecision Event.
Proof. solve_decision. Defined.

(** The collaborators the program calls into.  A converter is given the
    file store and leaves a new one, with the exception it raised if any. *)
Record Env := mkEnv {
  (** [shutil.which(cmd)] *)
  which : string -> option string;
  (** [docx2pdf.convert(src, dst)] *)
  docx2pdf_convert : string -> string -> World -> World * option Exn;
  (** the child process started by [subprocess.run(argv)]: its exit status *)
  subprocess_exec : list string -> World -> World * Z;
  (** [pdf2docx.Converter(src)], [.convert(dst)] and [.close()] *)
  pdf2docx_open : string -> World -> option Exn;
  pdf2docx_convert : string -> string -> World -> World * option Exn;
  pdf2docx_close : string -> World -> option Exn;
  (** [p.resolve()] *)
  resolve : Path -> Path;
  (** whether [google.colab.files] could be imported *)
  colab_files : bool
}.

(** The state threaded through a run: the file store, the calls made so far
    (oldest first) and the results the upload prompt has yet to deliver (each
    the keys of the dictionary [upload()] returns). *)
Record State := mkState {
  world : World;
  trace : list Event;
  uploads : list (list string)
}.

Definition M (A : Type) : Type := State -> Outcome A * State.

Definition ret {A} (a : A) : M A := fun st => (Return a, st).

Definition raise {A} (e : Exn) : M A := fun st => (Raise e, st).

Definition bind {A B} (m : M A) (k : A -> M B) : M B :=
  fun st =>
    match m st with
    | (Return a, st') => k a st'
    | (Raise e, st') => (Raise e, st')
    | (Pending, st') => (Pending, st')
    end.

Declare Scope conv_scope.
Delimit Scope conv_scope with conv.
Notation "x <- m ;; k" := (bind m (fun x => k))
  (at level 100, m at next level, right associativity) : conv_scope.
Notation "m ;;; k" := (bind m (fun _ => k))
  (at level 100, right associativity) : conv_scope.
Local Open Scope conv_scope.

(** [try: body except <classes matched by handles>: handler]. *)
Definition try_except {A} (body : M A) (handles : Exn -> bool) (handler : M A) : M A :=
  fun st =>
    match body st with
    | (Raise e, st') => if handles e then handler st' else (Raise e, st')
    | r => r
    end.

Definition emit (e : Event) : M unit :=
  fun st => (Return tt, mkState (world st) (trace st ++ [e]) (uploads st)).

Definition get_world : M World := fun st => (Return (world st), st).

Definition put_world (w : World) : M unit :=
  fun st => (Return tt, mkState w (trace st) (uploads st)).

Definition lift_sum {A} (r : Exn + A) : M A :=
  match r with inl e => raise e | inr a => ret a end.

Definition print (line : string) : M unit := emit (Print line).

(** Python's truth value of the result of [shutil.which]. *)
Definition truthy (o : option string) : bool :=
  match o with Some s => negb (Str.is_empty s) | None => false end.

Definition is_CalledProcessError (e : Exn) : bool :=
  match e with CalledProcessError _ _ => true | _ => false end.

Section Calls.

Variable env : Env.

Definition mkdir (d : Path) : M unit :=
  emit (Mkdir d) ;;;
  w <- get_world ;;
  put_world (FS.mkdir_parents d w).

Definition path_exists (p : Path) : M bool :=
  emit (Exists p) ;;;
  w <- get_world ;;
  ret (FS.path_exists p w).

Definition rename (a b : Path) : M unit :=
  emit (Rename a b) ;;;
  w <- get_world ;;
  w' <- lift_sum (FS.rename a b w) ;;
  put_world w'.

Definition shutil_which (cmd : string) : M (option string) :=
  emit (Which cmd) ;;;
  ret (which env cmd).

(** A converter call: the store it leaves is kept whether or not it raised. *)
Definition external (f : World -> World * option Exn) : M unit :=
  w <- get_world ;;
  let '(w', r) := f w in
  put_world w' ;;;
  match r with Some e => raise e | None => ret tt end.

Definition docx_to_pdf (src dst : string) : M unit :=
  emit (Docx2pdf src dst) ;;;
  external (docx2pdf_convert env src dst).

(** [subprocess.run(argv, check=..., capture_output=...)]: with [check] a
    non-zero exit status raises [CalledProcessError]. *)
Definition subprocess_run (argv : list string) (check capture_output : bool) : M Z :=
  emit (Run argv check capture_output) ;;;
  w <- get_world ;;
  let '(w', rc) := subprocess_exec env argv w in
  put_world w' ;;;
  if (check && negb (rc =? 0))%bool then raise (CalledProcessError rc argv) else ret rc.

Definition PDF2DOCX (src : string) : M string :=
  emit (Pdf2docxOpen src) ;;;
  external (fun w => (w, pdf2docx_open env src w)) ;;;
  ret src.

Definition pdf_convert (pdf : string) (dst : string) : M unit :=
  emit (Pdf2docxConvert dst) ;;;
  external (pdf2docx_convert env pdf dst).

Definition pdf_close (pdf : string) : M unit :=
  emit Pdf2docxClose ;;;
  external (fun w => (w, pdf2docx_close env pdf w)).

End Calls.

(** ** The program *)

(** The value of [--to]; argparse admits the two choices only. *)
Inductive Choice := to_pdf | to_docx.

Definition choice_str (c : Choice) : string :=
  match c with to_pdf => "pdf" | to_docx => "docx" end.

(** What [parse_known_args] hands to [main]. *)
Record Args := mkArgs {
  input : option Path;
  output : option Path;
  to : option Choice
}.

Definition no_soffice_msg : string :=
  "docx2pdf requires Word and LibreOffice (soffice) was not found for fallback.".

Definition unsupported_msg : string := "Only .docx and .pdf files are supported.".

Definition same_type_msg : string :=
  "Input and output types are the same; choose the opposite format.".

Definition no_input_msg : string :=
  "No input provided. Pass a file path when running outside Colab.".

(** [src_ext = src.suffix.lower()] *)
Definition source_ext (src : Path) : string := Str.lower (PathOps.suffix src).

(** [src_ext not in (".docx", ".pdf")], negated. *)
Definition supported (ext : string) : bool :=
  (String.eqb ext ".docx" || String.eqb ext ".pdf")%bool.

(** [f".{args.to.lower()}" if args.to else (".pdf" if src_ext == ".docx" else ".docx")] *)
Definition target_ext (to : option Choice) (src_ext : string) : string :=
  match to with
  | Some c => "." +:+ Str.lower (choice_str c)
  | None => if String.eqb src_ext ".docx" then ".pdf" else ".docx"
  end.

(** The output path of [main]: the caller's, its suffix replaced when it does
    not lower to the target, else [output_resume] with the target suffix. *)
Definition output_path (output : option Path) (target : string) : Exn + Path :=
  match output with
  | Some out =>
      if negb (String.eqb (Str.lower (PathOps.suffix out)) target)
      then PathExn.with_suffix out target
      else inr out
  | None => PathExn.with_suffix (mkPath false ["output_resume"]) target
  end.

Section Program.

Variable env : Env.

Definition convert_docx_to_pdf (src dst : Path) : M unit :=
  mkdir (PathOps.parent dst) ;;;
  try_except
    (docx_to_pdf env (PathOps.str src) (PathOps.str dst))
    (fun _ => true)
    (soffice <- shutil_which env "soffice" ;;
     if negb (truthy soffice) then raise (RuntimeError no_soffice_msg)
     else
       subprocess_run env
         [ default "" soffice; "--headless"; "--convert-to"; "pdf"; "--outdir";
           PathOps.str (PathOps.parent dst); PathOps.str src ]
         true false ;;;
       ret tt).

(** The body of the [try] of [convert_pdf_to_docx]; it ends in [return], so
    its value [true] tells the caller that the function is done. *)
Definition soffice_tier (soffice : option string) (src dst : Path) : M bool :=
  subprocess_run env
    [ default "" soffice; "--headless"; "--convert-to"; "docx"; "--outdir";
      PathOps.str (PathOps.parent dst); PathOps.str src ]
    true true ;;;
  renamed <- lift_sum (PathExn.with_suffix src ".docx") ;;
  let libreoffice_output := PathOps.child (PathOps.parent dst) (PathOps.name renamed) in
  there <- path_exists libreoffice_output ;;
  (if (there && negb (bool_decide (libreoffice_output = dst)))%bool
   then rename libreoffice_output dst else ret tt) ;;;
  ret true.

Definition convert_pdf_to_docx (src dst : Path) : M unit :=
  mkdir (PathOps.parent dst) ;;;
  soffice <- shutil_which env "soffice" ;;
  returned <-
    (if truthy soffice
     then try_except (soffice_tier soffice src dst) is_CalledProcessError (ret false)
     else ret false) ;;
  if returned : bool then ret tt
  else
    pdf <- PDF2DOCX env (PathOps.str src) ;;
    pdf_convert env pdf (PathOps.str dst) ;;;
    pdf_close env pdf.

(** The [while True] of [_prompt_for_file], one turn per scripted upload.
    The files that [upload()] saves are taken to be in the store already (see
    the conventions at the top). *)
Fixpoint upload_loop (pending : list (list string)) : M Path :=
  print "Please upload a DOCX or PDF resume..." ;;;
  emit Upload ;;;
  match pending with
  | [] => fun st => (Pending, st)
  | uploaded :: rest =>
      (fun st => (Return tt, mkState (world st) (trace st) rest)) ;;;
      match uploaded with
      | [] => print "⚠️  No file uploaded. Try again." ;;; upload_loop rest
      | name :: _ =>
          let path := resolve env (PathOps.of_string name) in
          if negb (supported (Str.lower (PathOps.suffix path)))
          then print ("⚠️  '" +:+ name +:+ "' is not a DOCX/PDF. Please upload a supported file.") ;;;
               upload_loop rest
          else print ("✓ Uploaded: " +:+ name) ;;; ret path
      end
  end.

Definition _prompt_for_file : M Path :=
  if negb (colab_files env) then raise (ValueError no_input_msg)
  else fun st => upload_loop (uploads st) st.

Definition main (args : Args) (extras : list string) : M unit :=
  (if negb (bool_decide (extras = []))
   then print ("Ignoring extra args: " +:+ Str.join " " extras) else ret tt) ;;;
  src <- match input args with
         | Some p => ret (resolve env p)
         | None => _prompt_for_file
         end ;;
  print ("Using source file: " +:+ PathOps.str src) ;;;
  there <- path_exists src ;;
  if negb there then raise (FileNotFoundError src)
  else
    let src_ext := source_ext src in
    if negb (supported src_ext) then raise (ValueError unsupported_msg)
    else
      let target := target_ext (to args) src_ext in
      if String.eqb target src_ext then raise (ValueError same_type_msg)
      else
        out <- lift_sum (output_path (output args) target) ;;
        (if String.eqb target ".pdf"
         then convert_docx_to_pdf src out
         else convert_pdf_to_docx src out) ;;;
        print ("✅ Saved to " +:+ PathOps.str out).

End Program.

(** ** Reading [main] in two halves

    [main_source] is [main] up to the point where [src] is bound (lines 124
    to 131); [format_router] is [main] up to the conversion step (lines 124
    to 153) and yields the source, the output path and the target extension.
    [main_router] below shows that [main] is the router followed by the
    conversion step. *)

Section Halves.

Variable env : Env.

Definition main_source (args : Args) (extras : list string) : M Path :=
  (if negb (bool_decide (extras = []))
   then print ("Ignoring extra args: " +:+ Str.join " " extras) else ret tt) ;;;
  match input args with
  | Some p => ret (resolve env p)
  | None => _prompt_for_file env
  end.

Definition route (args : Args) (src : Path) : M (Path * Path * string) :=
  print ("Using source file: " +:+ PathOps.str src) ;;;
  there <- path_exists src ;;
  if negb there then raise (FileNotFoundError src)
  else
    let src_ext := source_ext src in
    if negb (supported src_ext) then raise (ValueError unsupported_msg)
    else
      let target := target_ext (to args) src_ext in
      if String.eqb target src_ext then raise (ValueError same_type_msg)
      else
        out <- lift_sum (output_path (output args) target) ;;
        ret (src, out, target).

Definition format_router (args : Args) (extras : list string) : M (Path * Path * string) :=
  src <- main_source args extras ;;
  route args src.

(** Lines 155 to 160 of [main]. *)
Definition conversion_step (plan : Path * Path * string) : M unit :=
  let '(src, out, target) := plan in
  (if String.eqb target ".pdf"
   then convert_docx_to_pdf env src out
   else convert_pdf_to_docx env src out) ;;;
  print ("✅ Saved to " +:+ PathOps.str out).

End Halves.

(** The state after a run has made the calls [evs] and left the store [w]. *)
Definition after (st : State) (w : World) (evs : list Event) : State :=
  mkState w (trace st ++ evs) (uploads st).

(** Calls that belong to a conversion, as opposed to printing, the existence
    test of [main] and the upload prompt. *)
Definition conversion_event (e : Event) : bool :=
  match e with
  | Print _ | Exists _ | Upload => false
  | _ => true
  end.

(** ** Vocabulary of the statements *)

Section Vocabulary.

Variable env : Env.

(** The state in which [route] leaves [main] when it raises or hands over to
    the conversion step: the source has been announced and tested. *)
Definition routed (st1 : State) (src : Path) : State :=
  after st1 (world st1)
    [Print ("Using source file: " +:+ PathOps.str src); Exists src].

(** A computation is quiet when it leaves the file store alone and makes no
    call that belongs to a conversion. *)
Definition quiet {A} (m : M A) : Prop :=
  forall st,
    world (m st).2 = world st /\
    exists evs, trace (m st).2 = (trace st ++ evs)%list /\
                Forall (fun e => conversion_event e = false) evs.

(** The command line of the office suite in either direction. *)
Definition soffice_argv (fmt : string) (src dst : Path) : list string :=
  [ default "" (which env "soffice"); "--headless"; "--convert-to"; fmt; "--outdir";
    PathOps.str (PathOps.parent dst); PathOps.str src ].

(** Where the office suite puts its result: the source's base name with the
    new extension, in the destination's parent directory. *)
Definition soffice_output (src dst : Path) (ext : string) : option Path :=
  match PathExn.with_suffix src ext with
  | inr q => Some (PathOps.child (PathOps.parent dst) (PathOps.name q))
  | inl _ => None
  end.

(** Lines 79 to 81 of [convert_pdf_to_docx]: the [pdf2docx] tier. *)
Definition pdf2docx_tier (src dst : Path) : M unit :=
  pdf <- PDF2DOCX env (PathOps.str src) ;;
  pdf_convert env pdf (PathOps.str dst) ;;;
  pdf_close env pdf.

(** The calls a run has added to the trace. *)
Definition events_since (st st' : State) : list Event :=
  drop (length (trace st)) (trace st').





End Vocabulary.

(** ** Sample runs used by the examples below *)

Module Sample.

Definition root : Path := mkPath true [].
Definition work : Path := mkPath true ["w"].
Definition resume_docx : Path := mkPath true ["w"; "resume.docx"].
Definition resume_pdf : Path := mkPath true ["w"; "resume.pdf"].
Definition output_pdf : Path := mkPath true ["w"; "output_resume.pdf"].
Definition output_docx : Path := mkPath true ["w"; "output_resume.docx"].
Definition notes_txt : Path := mkPath true ["w"; "notes.txt"].

Definition write (p : Path) (content : string) (w : World) : World :=
  mkWorld (<[p := content]> (files w)) (dirs w).

(** A Linux host: [docx2pdf] refuses to run, the office suite is installed
    and writes the source's base name with the new extension into the
    output directory, [pdf2docx] writes its destination. *)
Definition soffice_writes (argv : list string) (w : World) : World * Z :=
  match argv with
  | [_; _; _; fmt; _; outdir; src] =>
      match PathExn.with_suffix (PathOps.of_string src) ("." +:+ fmt) with
      | inr q => (write (PathOps.child (PathOps.of_string outdir) (PathOps.name q)) "converted" w, 0)
      | inl _ => (w, 0)
      end
  | _ => (w, 1)
  end.

Definition linux : Env := {|
  which := fun _ => Some "/usr/bin/soffice";
  docx2pdf_convert := fun _ _ w =>
    (w, Some (LibraryError "docx2pdf is not implemented for linux"));
  subprocess_exec := soffice_writes;
  pdf2docx_open := fun _ _ => None;
  pdf2docx_convert := fun _ dst w => (write (PathOps.of_string dst) "converted" w, None);
  pdf2docx_close := fun _ _ => None;
  resolve := fun p => p;
  colab_files := false
|}.

(** The same host without the office suite. *)
Definition bare : Env := {|
  which := fun _ => None;
  docx2pdf_convert := docx2pdf_convert linux;
  subprocess_exec := fun _ w => (w, 127);
  pdf2docx_open := pdf2docx_open linux;
  pdf2docx_convert := pdf2docx_convert linux;
  pdf2docx_close := pdf2docx_close linux;
  resolve := resolve linux;
  colab_files := false
|}.

(** A host whose office suite fails and whose [pdf2docx] rejects the file. *)
Definition broken : Env := {|
  which := which linux;
  docx2pdf_convert := docx2pdf_convert linux;
  subprocess_exec := fun _ w => (w, 1);
  pdf2docx_open := pdf2docx_open linux;
  pdf2docx_convert := fun _ _ w => (w, Some (LibraryError "not a PDF document"));
  pdf2docx_close := pdf2docx_close linux;
  resolve := resolve linux;
  colab_files := false
|}.

(** A working directory holding a DOCX resume, and one holding a PDF resume. *)
Definition docx_disk : World :=
  mkWorld {[ resume_docx := "docx bytes"; notes_txt := "text" ]} {[ root; work ]}.

Definition pdf_disk : World :=
  mkWorld {[ resume_pdf := "pdf bytes" ]} {[ root; work ]}.

(** The PDF resume next to a directory whose name ends in [.docx]. *)
Definition drafts : Path := mkPath true ["w"; "drafts.docx"].

Definition drafts_disk : World :=
  mkWorld {[ resume_pdf := "pdf bytes" ]} {[ root; work; drafts ]}.

Definition start (w : World) : State := mkState w [] [].

Definition missing_docx : Path := mkPath true ["w"; "missing.docx"].
Definition missing_txt : Path := mkPath true ["w"; "missing.txt"].
Definition out_upper : Path := mkPath true ["w"; "out.PDF"].
Definition default_pdf : Path := mkPath false ["output_resume.pdf"].

(** The command lines the runs below start. *)
Definition linux_soffice_pdf : list string :=
  ["/usr/bin/soffice"; "--headless"; "--convert-to"; "pdf"; "--outdir"; "/w";
   "/w/resume.docx"].

Definition linux_soffice_docx : list string :=
  ["/usr/bin/soffice"; "--headless"; "--convert-to"; "docx"; "--outdir"; "/w";
   "/w/resume.pdf"].

End Sample.

(** ** The rest of converter.py: the set-up made when the module is imported *)

Section Setup.

Variable env : Env.

Definition installing_msg : string := "Installing LibreOffice... This may take a moment.".

Definition installed_msg : string := "LibreOffice installed.".

Definition apt_update : list string := ["apt-get"; "update"].

Definition apt_install : list string := ["apt-get"; "install"; "-y"; "libreoffice"].

Definition install_libreoffice : M unit :=
  print installing_msg ;;;
  subprocess_run env apt_update true false ;;;
  subprocess_run env apt_install true false ;;;
  print installed_msg.

(** Lines 21 to 25, run once when the module is imported; [platform_system]
    is the value of [platform.system()]. *)
Definition module_import (platform_system : string) : M unit :=
  if String.eqb platform_system "Linux"
  then
    soffice <- shutil_which env "soffice" ;;
    if negb (truthy soffice) then install_libreoffice else ret tt
  else ret tt.

End Setup.

(** ** The web form (app.py)

    The conversion the form runs when a file is uploaded and the button is
    pressed (lines 14 to 45).  The widgets that only display text are left
    out; what the form offers for download is the value of the run.  The
    temporary directory is the fresh path [tmpdir] that
    [tempfile.TemporaryDirectory()] hands out; leaving the [with] block
    removes it with everything below it, also when the block raises. *)

Module App.

(** [p / q] for a parsed right operand: an absolute one replaces [p]. *)
Definition joinpath (p q : Path) : Path :=
  if absolute q then q else mkPath (absolute p) (parts p ++ parts q).

Fixpoint starts_with (d p : list string) : bool :=
  match d, p with
  | [], _ => true
  | x :: d', y :: p' => String.eqb x y && starts_with d' p'
  | _ :: _, [] => false
  end.

(** [p] is [d] or lies below it. *)
Definition under (d p : Path) : bool :=
  Bool.eqb (absolute d) (absolute p) && starts_with (parts d) (parts p).

(** [shutil.rmtree(d)]. *)
Definition remove_tree (d : Path) (w : World) : World :=
  mkWorld (filter (fun kv => under d kv.1 = false) (files w))
          (filter (fun p => under d p = false) (dirs w)).

(** [tempfile.mkdtemp()] handing out [d]. *)
Definition make_tempdir (d : Path) (w : World) : World :=
  mkWorld (files w) ({[d]} ∪ dirs w).

(** [with tempfile.TemporaryDirectory() as tmpdir: body]. *)
Definition with_tempdir {A} (tmpdir : Path) (body : M A) : M A :=
  fun st =>
    let '(r, st') :=
      body (mkState (make_tempdir tmpdir (world st)) (trace st) (uploads st)) in
    (r, mkState (remove_tree tmpdir (world st')) (trace st') (uploads st')).

(** [p.write_bytes(data)]; on the idealised store the write always succeeds. *)
Definition write_bytes (p : Path) (data : string) : M unit :=
  w <- get_world ;;
  put_world (mkWorld (<[p := data]> (files w)) (dirs w)).

(** [p.read_bytes()]. *)
Definition read_bytes (p : Path) : M string :=
  w <- get_world ;;
  match files w !! p with
  | Some data => ret data
  | None => raise (FileNotFoundError p)
  end.

(** [".pdf" if src_suffix == ".docx" else ".docx"] for
    [src_suffix = Path(uploaded.name).suffix.lower()]. *)
Definition form_target (name : string) : string :=
  if String.eqb (Str.lower (PathOps.suffix (PathOps.of_string name))) ".docx"
  then ".pdf" else ".docx".

Section Form.

Variable env : Env.

(** The body of the [with] block (lines 22 to 38); its value is the file name
    and the bytes later passed to [st.download_button]. *)
Definition convert_upload (tmpdir : Path) (name data : string) : M (string * string) :=
  let target_ext := form_target name in
  let src_path := joinpath tmpdir (PathOps.of_string name) in
  write_bytes src_path data ;;;
  out_path <- lift_sum (PathExn.with_suffix src_path target_ext) ;;
  (if String.eqb target_ext ".pdf"
   then convert_docx_to_pdf env src_path out_path
   else convert_pdf_to_docx env src_path out_path) ;;;
  result_data <- read_bytes out_path ;;
  ret (PathOps.name out_path, result_data).

(** One run of the script: [uploaded] is the name and content of the
    uploaded file if there is one, [clicked] tells whether the button was
    pressed; the value is the download offered, if any. *)
Definition form (tmpdir : Path) (uploaded : option (string * string)) (clicked : bool)
    : M (option (string * string)) :=
  match uploaded with
  | Some (name, data) =>
      if clicked
      then offer <- with_tempdir tmpdir (convert_upload tmpdir name data) ;;
           ret (Some offer)
      else ret None
  | None => ret None
  end.

End Form.

End App.

(** ** Further vocabulary *)

(** An upload the prompt turns down: an empty one, or one whose first file
    does not have a supported extension once resolved. *)
Definition turned_down (env : Env) (uploaded : list string) : bool :=
  match uploaded with
  | [] => true
  | name :: _ =>
      negb (supported (Str.lower (PathOps.suffix (resolve env (PathOps.of_string name)))))
  end.

Definition is_Upload (e : Event) : bool :=
  match e with Upload => true | _ => false end.

Definition is_Run (e : Event) : bool :=
  match e with Run _ _ _ => true | _ => false end.

(** The converter [main] hands the source to, by target extension. *)
Definition converter (env : Env) (target : string) (src out : Path) : M unit :=
  if String.eqb target ".pdf"
  then convert_docx_to_pdf env src out
  else convert_pdf_to_docx env src out.

(** Every converter that reports success has left its output file: [docx2pdf]
    and [pdf2docx] at the destination, the office suite at the path it names
    from the source. *)
Definition tools_deliver (env : Env) (src dst : Path) : Prop :=
  (forall w w', docx2pdf_convert env (PathOps.str src) (PathOps.str dst) w = (w', None) ->
                is_Some (files w' !! dst)) /\
  (forall w w', subprocess_exec env (soffice_argv env "pdf" src dst) w = (w', 0) ->
                exists lo, soffice_output src dst ".pdf" = Some lo /\
                           is_Some (files w' !! lo)) /\
  (forall w w', subprocess_exec env (soffice_argv env "docx" src dst) w = (w', 0) ->
                exists lo, soffice_output src dst ".docx" = Some lo /\
                           is_Some (files w' !! lo)) /\
  (forall w w', pdf2docx_convert env (PathOps.str src) (PathOps.str dst) w = (w', None) ->
                is_Some (files w' !! dst)).

Definition saved_msg (out : Path) : string := "✅ Saved to " +:+ PathOps.str out.

(** The line [main] prints about ignored arguments, if any. *)
Definition announced (extras : list string) : list Event :=
  if bool_decide (extras = []) then []
  else [Print ("Ignoring extra args: " +:+ Str.join " " extras)].

Definition please_msg : string := "Please upload a DOCX or PDF resume...".

(** What the prompt prints about an upload it turns down. *)
Definition turn_down_msg (uploaded : list string) : string :=
  match uploaded with
  | [] => "⚠️  No file uploaded. Try again."
  | name :: _ => "⚠️  '" +:+ name +:+ "' is not a DOCX/PDF. Please upload a supported file."
  end.

(** The path the prompt makes of an upload it accepts. *)
Definition uploaded_path (env : Env) (uploaded : list string) : Path :=
  resolve env (PathOps.of_string (hd "" uploaded)).

(** The state after one more call of [upload()]. *)
Definition asked (st : State) (rest : list (list string)) (said : list Event) : State :=
  mkState (world st) (trace st ++ Print please_msg :: Upload :: said) rest.

(** The state in which the form starts the conversion: the temporary
    directory exists and holds the upload. *)
Definition seeded (tmpdir : Path) (name data : string) (st : State) : State :=
  mkState
    (mkWorld (<[App.joinpath tmpdir (PathOps.of_string name) := data]>
                (files (App.make_tempdir tmpdir (world st))))
             (dirs (App.make_tempdir tmpdir (world st))))
    (trace st) (uploads st).

(** The state once the temporary directory has been removed. *)
Definition cleaned (tmpdir : Path) (st : State) : State :=
  mkState (App.remove_tree tmpdir (world st)) (trace st) (uploads st).

(** Hosts and uploads for the further examples. *)
Module Cases.

Import Sample.

Definition content : Path := mkPath true ["content"].
Definition tmp : Path := mkPath true ["tmp"; "tmpa1b2"].

(** A Colab notebook on the Linux host of [Sample.linux]; relative paths
    resolve against [/content]. *)
Definition colab : Env := {|
  which := which linux;
  docx2pdf_convert := docx2pdf_convert linux;
  subprocess_exec := subprocess_exec linux;
  pdf2docx_open := pdf2docx_open linux;
  pdf2docx_convert := pdf2docx_convert linux;
  pdf2docx_close := pdf2docx_close linux;
  resolve := fun p => App.joinpath content p;
  colab_files := true
|}.

Definition colab_disk : World :=
  mkWorld {[ mkPath true ["content"; "cv.pdf"] := "pdf bytes" ]} {[ root; content ]}.

(** A host on which [apt-get update] fails, and one on which it works. *)
Definition offline : Env := {|
  which := fun _ => None;
  docx2pdf_convert := docx2pdf_convert linux;
  subprocess_exec := fun _ w => (w, 100);
  pdf2docx_open := pdf2docx_open linux;
  pdf2docx_convert := pdf2docx_convert linux;
  pdf2docx_close := pdf2docx_close linux;
  resolve := resolve linux;
  colab_files := false
|}.

(** A host whose office suite exits with status 0 without writing anything. *)
Definition silent : Env := {|
  which := which linux;
  docx2pdf_convert := docx2pdf_convert linux;
  subprocess_exec := fun _ w => (w, 0);
  pdf2docx_open := pdf2docx_open linux;
  pdf2docx_convert := pdf2docx_convert linux;
  pdf2docx_close := pdf2docx_close linux;
  resolve := resolve linux;
  colab_files := false
|}.

Definition cv_pdf : Path := mkPath true ["content"; "cv.pdf"].

(** A session in which nothing, then a text file, then [cv.pdf] is uploaded. *)
Definition session : State :=
  mkState colab_disk [] [[]; ["notes.txt"]; ["cv.pdf"; "photo.png"]; ["late.docx"]].

(** A session in which no acceptable file is ever uploaded. *)
Definition idle : State := mkState colab_disk [] [[]; ["notes.txt"]].

Definition to_pdf_args : Args := mkArgs (Some resume_docx) None (Some to_pdf).

(** A PDF kept in a directory that is itself called [resume.docx]. *)
Definition nested_pdf : Path := mkPath true ["w"; "resume.docx"; "resume.pdf"].
Definition out_docx : Path := mkPath true ["w"; "out.docx"].

Definition nested_disk : World :=
  mkWorld {[ nested_pdf := "pdf bytes" ]} {[ root; work; resume_docx ]}.

End Cases.
(** * Properties *)

(** ** Path arithmetic *)

Section PathFacts.

Lemma length_append (a b : string) :
  String.length (a +:+ b) = (String.length a + String.length b)%nat.
Proof. induction a as [|c a IH]; simpl; [done | by rewrite IH]. Qed.

Lemma rfind_after_stem (stem e : string) :
  Str.rfind "." e = None ->
  Str.rfind "." (stem +:+ String "." e) = Some (String.length stem).
Proof.
  intros He. induction stem as [|c stem IH]; simpl.
  - by rewrite He.
  - by rewrite IH.
Qed.

Lemma substring_whole (s : string) : String.substring 0 (String.length s) s = s.
Proof. induction s as [|c s IH]; simpl; [done | by rewrite IH]. Qed.

Lemma substring_skip (a b : string) (n : nat) :
  String.substring (String.length a) n (a +:+ b) = String.substring 0 n b.
Proof. induction a as [|c a IH]; simpl; [done | apply IH]. Qed.

Lemma from_append (a b : string) : Str.from (String.length a) (a +:+ b) = b.
Proof.
  unfold Str.from. rewrite length_append, substring_skip.
  replace (String.length a + String.length b - String.length a)%nat
    with (String.length b) by lia.
  apply substring_whole.
Qed.

Lemma length_upto (i : nat) (s : string) :
  (i <= String.length s)%nat -> String.length (Str.upto i s) = i.
Proof.
  unfold Str.upto. revert i. induction s as [|c s IH]; intros [|i] Hi; simpl in *;
    try done; try lia.
  rewrite IH; [done | lia].
Qed.

Lemma is_empty_length (s : string) : Str.is_empty s = false -> (0 < String.length s)%nat.
Proof. destruct s; simpl; [done | lia]. Qed.

Lemma length_pos_nonempty (s : string) : (0 < String.length s)%nat -> s <> "".
Proof. destruct s; simpl; [lia | done]. Qed.

(** A name made of a non-empty stem and an extension [.e] without a further
    dot has that extension as its suffix. *)
Lemma suffix_of_name_stem (stem e : string) :
  (0 < String.length stem)%nat -> (0 < String.length e)%nat ->
  Str.rfind "." e = None ->
  PathOps.suffix_of_name (stem +:+ String "." e) = String "." e.
Proof.
  intros Hs He Hr. unfold PathOps.suffix_of_name.
  rewrite rfind_after_stem by done.
  rewrite length_append. simpl String.length.
  destruct (Nat.ltb_spec 0 (String.length stem)); [|lia].
  destruct (Nat.ltb_spec (String.length stem)
              (String.length stem + S (String.length e) - 1)); [|lia].
  simpl. apply from_append.
Qed.

Lemma rfind_bound (c : ascii) (s : string) (i : nat) :
  Str.rfind c s = Some i -> (i < String.length s)%nat.
Proof.
  revert i. induction s as [|a s IH]; intros i; simpl; [done|].
  destruct (Str.rfind c s) as [j|].
  - intros [= <-]. specialize (IH j eq_refl). lia.
  - destruct (Ascii.eqb a c); [intros [= <-]; lia | done].
Qed.

(** What is left of a name once its suffix is cut off is not empty. *)
Lemma stem_nonempty (n : string) :
  Str.is_empty n = false ->
  let old := PathOps.suffix_of_name n in
  (0 < String.length
         (if Str.is_empty old then n
          else Str.upto (String.length n - String.length old) n))%nat.
Proof.
  intros Hn. cbv zeta. unfold PathOps.suffix_of_name.
  destruct (Str.rfind "." n) as [i|] eqn:Hi; [|simpl; by apply is_empty_length].
  pose proof (rfind_bound _ _ _ Hi) as Hb.
  destruct (Nat.ltb_spec 0 i); simpl; [|by apply is_empty_length].
  destruct (Nat.ltb_spec i (String.length n - 1)); simpl; [|by apply is_empty_length].
  destruct (Str.is_empty (Str.from i n)) eqn:Hf; [by apply is_empty_length|].
  assert (String.length (Str.from i n) = (String.length n - i)%nat) as Hlen.
  { unfold Str.from. clear -Hb. revert i Hb.
    induction n as [|c n IH]; intros i Hb; simpl in *; [lia|].
    destruct i as [|i].
    - simpl. f_equal. clear. induction n as [|a n IH]; simpl; [done | by rewrite IH].
    - simpl. apply IH. lia. }
  rewrite Hlen, length_upto; lia.
Qed.

Lemma name_with_last (abs : bool) (l : list string) (n : string) :
  PathOps.name (mkPath abs (l ++ [n])) = n.
Proof. unfold PathOps.name. simpl. apply List.last_last. Qed.


(** [p.with_suffix(".e").suffix == ".e"] for an extension without a dot. *)
Lemma suffix_with_suffix (p q : Path) (e : string) :
  (0 < String.length e)%nat -> Str.rfind "." e = None ->
  PathExn.with_suffix p (String "." e) = inr q ->
  PathOps.suffix q = String "." e.
Proof.
  intros He Hr. unfold PathExn.with_suffix.
  destruct (Str.contains "/" (String "." e)); [done|].
  destruct (negb _ && negb _ || _)%bool; [done|].
  destruct (Str.is_empty (PathOps.name p)) eqn:Hn; [done|].
  intros [= <-]. unfold PathOps.suffix at 1. rewrite name_with_last.
  pose proof (stem_nonempty _ Hn) as Hstem. cbv zeta in Hstem.
  unfold PathOps.suffix.
  destruct (Str.is_empty (PathOps.suffix_of_name (PathOps.name p)));
    by apply suffix_of_name_stem.
Qed.

(** A path with a file name takes either of the two extensions. *)
Lemma with_suffix_named (p : Path) (s : string) :
  s = ".pdf" \/ s = ".docx" -> Str.is_empty (PathOps.name p) = false ->
  exists q, PathExn.with_suffix p s = inr q.
Proof.
  intros Hs Hn. unfold PathExn.with_suffix.
  destruct Hs as [-> | ->]; cbn -[PathOps.name PathOps.suffix Str.upto]; rewrite Hn; eauto.
Qed.

Lemma with_suffix_has_name (p q : Path) (s : string) :
  PathExn.with_suffix p s = inr q -> Str.is_empty (PathOps.name p) = false.
Proof.
  unfold PathExn.with_suffix.
  destruct (Str.contains "/" s); [done|].
  destruct (negb _ && negb _ || _)%bool; [done|].
  by destruct (Str.is_empty (PathOps.name p)).
Qed.

End PathFacts.

(** ** The format router *)

Section RouterFacts.

Variable env : Env.

Lemma bind_assoc {A B C} (m : M A) (f : A -> M B) (g : B -> M C) (st : State) :
  bind (bind m f) g st = bind m (fun a => bind (f a) g) st.
Proof. unfold bind. by destruct (m st) as [[a| |] st']. Qed.

Lemma bind_ext {A B} (m : M A) (f g : A -> M B) (st : State) :
  (forall a s, f a s = g a s) -> bind m f st = bind m g st.
Proof. intros H. unfold bind. by destruct (m st) as [[a| |] st']. Qed.

Lemma main_router (args : Args) (extras : list string) (st : State) :
  main env args extras st = bind (format_router env args extras) (conversion_step env) st.
Proof.
  unfold main, format_router, main_source.
  rewrite !bind_assoc. apply bind_ext. intros _ s0.
  apply bind_ext. intros src s1. unfold route.
  rewrite bind_assoc. apply bind_ext. intros _ s2.
  rewrite bind_assoc. apply bind_ext. intros there s3.
  destruct (negb there); [done|].
  destruct (negb (supported (source_ext src))); [done|].
  destruct (String.eqb _ (source_ext src)); [done|].
  rewrite bind_assoc. by apply bind_ext.
Qed.

(** The two extensions the router can select. *)
Lemma target_ext_cases (t : option Choice) (src_ext : string) :
  target_ext t src_ext = ".pdf" \/ target_ext t src_ext = ".docx".
Proof.
  destruct t as [[]|]; simpl; auto. destruct (String.eqb src_ext ".docx"); auto.
Qed.

Lemma supported_cases (ext : string) :
  supported ext = true -> ext = ".docx" \/ ext = ".pdf".
Proof.
  unfold supported. intros H. apply orb_prop in H as [H|H];
    apply String.eqb_eq in H; auto.
Qed.


Lemma quiet_ret {A} (a : A) : quiet (ret a).
Proof. intros st. split; [done|]. exists []. by rewrite app_nil_r. Qed.

Lemma quiet_raise {A} (e : Exn) : quiet (@raise A e).
Proof. intros st. split; [done|]. exists []. by rewrite app_nil_r. Qed.

Lemma quiet_emit (e : Event) : conversion_event e = false -> quiet (emit e).
Proof. intros He st. split; [done|]. exists [e]. split; [done | by constructor]. Qed.

Lemma quiet_bind {A B} (m : M A) (f : A -> M B) :
  quiet m -> (forall a, quiet (f a)) -> quiet (bind m f).
Proof.
  intros Hm Hf st. unfold bind.
  destruct (Hm st) as (Hw & evs & Ht & Hq).
  destruct (m st) as [[a| |] st1]; simpl in *; [|by eauto|by eauto].
  destruct (Hf a st1) as (Hw' & evs' & Ht' & Hq').
  split; [congruence|]. exists (evs ++ evs')%list.
  rewrite Ht', Ht, app_assoc. split; [done | by apply Forall_app].
Qed.

(** The upload prompt prints and waits; it starts no conversion. *)
Lemma upload_loop_quiet (pending : list (list string)) : quiet (upload_loop env pending).
Proof.
  induction pending as [|uploaded rest IH]; cbn [upload_loop];
    (apply quiet_bind; [by apply quiet_emit|]; intros _);
    (apply quiet_bind; [by apply quiet_emit|]; intros _).
  - intros st. split; [done|]. exists []. by rewrite app_nil_r.
  - apply quiet_bind.
    { intros st. split; [done|]. exists []. simpl. by rewrite app_nil_r. }
    intros _. destruct uploaded as [|name keys].
    + apply quiet_bind; [by apply quiet_emit | done].
    + destruct (negb _).
      * apply quiet_bind; [by apply quiet_emit | done].
      * apply quiet_bind; [by apply quiet_emit | intros; apply quiet_ret].
Qed.

Lemma main_source_quiet (args : Args) (extras : list string) :
  quiet (main_source env args extras).
Proof.
  unfold main_source. apply quiet_bind.
  - destruct (negb _); [by apply quiet_emit | apply quiet_ret].
  - intros _. destruct (input args); [apply quiet_ret|].
    unfold _prompt_for_file. destruct (negb _); [apply quiet_raise|].
    intros st. apply upload_loop_quiet.
Qed.

(** [main] from the point where its source is known. *)
Lemma main_from_source (args : Args) (extras : list string) (st st1 : State) (src : Path) :
  main_source env args extras st = (Return src, st1) ->
  main env args extras st = bind (route args src) (conversion_step env) st1.
Proof.
  intros Hs. rewrite main_router. unfold format_router, bind at 1 2. by rewrite Hs.
Qed.

End RouterFacts.

Section RouterClaims.

Variable env : Env.


Lemma route_run (args : Args) (src : Path) (st1 : State) :
  route args src st1 =
    if negb (FS.path_exists src (world st1)) then (Raise (FileNotFoundError src), routed st1 src)
    else if negb (supported (source_ext src))
    then (Raise (ValueError unsupported_msg), routed st1 src)
    else if String.eqb (target_ext (to args) (source_ext src)) (source_ext src)
    then (Raise (ValueError same_type_msg), routed st1 src)
    else match output_path (output args) (target_ext (to args) (source_ext src)) with
         | inl e => (Raise e, routed st1 src)
         | inr out =>
             (Return (src, out, target_ext (to args) (source_ext src)), routed st1 src)
         end.
Proof.
  assert (forall A (r : Outcome A),
            (r, mkState (world st1)
                  ((trace st1 ++ [Print ("Using source file: " +:+ PathOps.str src)])
                     ++ [Exists src]) (uploads st1))
            = (r, routed st1 src)) as Hst.
  { intros A r. unfold routed, after. by rewrite <- app_assoc. }
  unfold route, print, path_exists. unfold bind, emit, get_world, ret, raise.
  cbn [fst snd world trace uploads].
  destruct (negb (FS.path_exists src (world st1))); [apply Hst|].
  destruct (negb (supported (source_ext src))); [apply Hst|].
  destruct (String.eqb _ (source_ext src)); [apply Hst|].
  destruct (output_path _ _); apply Hst.
Qed.

Lemma no_conversion_so_far (st st1 : State) (src : Path) (args : Args) (extras : list string) :
  main_source env args extras st = (Return src, st1) ->
  world st1 = world st /\
  forall e, e ∈ trace (routed st1 src) -> conversion_event e = true -> e ∈ trace st.
Proof.
  intros Hs. destruct (main_source_quiet env args extras st) as (Hw & evs & Ht & Hq).
  rewrite Hs in Hw, Ht. simpl in Hw, Ht. split; [done|].
  intros e. unfold routed, after. cbn [trace]. rewrite Ht.
  rewrite !elem_of_app. intros [[He|He]|He] Hc; [done| |].
  - rewrite Forall_forall in Hq. rewrite (Hq e He) in Hc. done.
  - apply elem_of_cons in He as [->|He]; [done|].
    apply elem_of_cons in He as [->|He]; [done|]. by apply elem_of_nil in He.
Qed.

Lemma lower_target (t : option Choice) (src_ext : string) :
  Str.lower (target_ext t src_ext) = target_ext t src_ext.
Proof. by destruct (target_ext_cases t src_ext) as [-> | ->]. Qed.

Lemma suffix_with_target (p q : Path) (t : option Choice) (src_ext : string) :
  PathExn.with_suffix p (target_ext t src_ext) = inr q ->
  PathOps.suffix q = target_ext t src_ext.
Proof.
  destruct (target_ext_cases t src_ext) as [-> | ->];
    apply suffix_with_suffix; simpl; done || lia.
Qed.

Lemma output_path_suffix (o : option Path) (t : option Choice) (src_ext : string) (out : Path) :
  output_path o (target_ext t src_ext) = inr out ->
  Str.lower (PathOps.suffix out) = target_ext t src_ext.
Proof.
  unfold output_path. destruct o as [p|].
  - destruct (String.eqb _ _) eqn:He; simpl.
    + intros [= <-]. by apply String.eqb_eq.
    + intros H. rewrite (suffix_with_target _ _ _ _ H). apply lower_target.
  - intros H. rewrite (suffix_with_target _ _ _ _ H). apply lower_target.
Qed.

(** C2.  For a supported source extension and no [--to], the router selects
    the other format: [.pdf] for a source whose extension lowers to [.docx],
    [.docx] for one whose extension lowers to [.pdf], never the source's own;
    and [main], run on such a source that exists, reaches the conversion
    step with that target. *)
Theorem default_route_swaps (src : Path) :
  supported (source_ext src) = true ->
  (source_ext src = ".docx" -> target_ext None (source_ext src) = ".pdf") /\
  (source_ext src = ".pdf" -> target_ext None (source_ext src) = ".docx") /\
  target_ext None (source_ext src) <> source_ext src /\
  forall (args : Args) (extras : list string) (st st1 : State) (out : Path),
    to args = None ->
    main_source env args extras st = (Return src, st1) ->
    FS.path_exists src (world st1) = true ->
    output_path (output args) (target_ext None (source_ext src)) = inr out ->
    format_router env args extras st =
      (Return (src, out, target_ext None (source_ext src)), routed st1 src) /\
    main env args extras st =
      conversion_step env (src, out, target_ext None (source_ext src)) (routed st1 src).
Proof.
  intros Hsup.
  assert (String.eqb (target_ext None (source_ext src)) (source_ext src) = false) as Hne.
  { by destruct (supported_cases _ Hsup) as [-> | ->]. }
  split; [by intros ->|]. split; [by intros ->|]. split; [by apply String.eqb_neq|].
  intros args extras st st1 out Hto Hs Hex Hout.
  assert (format_router env args extras st =
            (Return (src, out, target_ext None (source_ext src)), routed st1 src)) as Hr.
  { unfold format_router, bind. rewrite Hs, route_run, Hex, Hsup, Hto. cbn [negb].
    by rewrite Hne, Hout. }
  split; [done|]. rewrite main_router. unfold bind. by rewrite Hr.
Qed.

(** C6, as amended.  When the source exists and [--to] names the source's
    own format, [main] raises the same-type [ValueError]; nothing but the
    announcement and the existence test has happened, so no conversion was
    attempted. *)
Theorem same_format_rejected (args : Args) (extras : list string) (st st1 : State)
    (src : Path) (c : Choice) :
  main_source env args extras st = (Return src, st1) ->
  FS.path_exists src (world st1) = true ->
  to args = Some c ->
  "." +:+ Str.lower (choice_str c) = source_ext src ->
  main env args extras st = (Raise (ValueError same_type_msg), routed st1 src) /\
  world (routed st1 src) = world st /\
  forall e, e ∈ trace (routed st1 src) -> conversion_event e = true -> e ∈ trace st.
Proof.
  intros Hs Hex Hto Hsame.
  split; [| by apply (no_conversion_so_far _ _ _ _ _ Hs)].
  rewrite (main_from_source _ _ _ _ _ _ Hs). unfold bind. rewrite route_run, Hex, Hto.
  cbn [negb target_ext]. rewrite Hsame.
  assert (supported (source_ext src) = true) as ->.
  { rewrite <- Hsame. by destruct c. }
  cbn [negb]. by rewrite String.eqb_refl.
Qed.

(** C7, as amended.  When the source exists and its extension, lowered, is
    neither [.docx] nor [.pdf], [main] raises the unsupported-format
    [ValueError]; no target has been computed and no conversion started. *)
Theorem unsupported_source_rejected (args : Args) (extras : list string) (st st1 : State)
    (src : Path) :
  main_source env args extras st = (Return src, st1) ->
  FS.path_exists src (world st1) = true ->
  supported (source_ext src) = false ->
  main env args extras st = (Raise (ValueError unsupported_msg), routed st1 src) /\
  format_router env args extras st = (Raise (ValueError unsupported_msg), routed st1 src) /\
  world (routed st1 src) = world st /\
  forall e, e ∈ trace (routed st1 src) -> conversion_event e = true -> e ∈ trace st.
Proof.
  intros Hs Hex Hsup.
  assert (route args src st1 = (Raise (ValueError unsupported_msg), routed st1 src)) as Hr.
  { by rewrite route_run, Hex, Hsup. }
  split; [|split; [| by apply (no_conversion_so_far _ _ _ _ _ Hs)]].
  - rewrite (main_from_source _ _ _ _ _ _ Hs). unfold bind. by rewrite Hr.
  - unfold format_router, bind. by rewrite Hs, Hr.
Qed.

(** C8, as amended.  Whenever [main] reaches the conversion step, the output
    path's extension, lowered, is the target extension; it is the caller's
    path when that already holds, the caller's path with its suffix replaced
    when it does not, and [output_resume] with the target suffix when no path
    was given; and it differs from the source's extension. *)
Theorem output_extension_matches (args : Args) (extras : list string) (st st' : State)
    (src out : Path) (target : string) :
  format_router env args extras st = (Return (src, out, target), st') ->
  main env args extras st = conversion_step env (src, out, target) st' /\
  target = target_ext (to args) (source_ext src) /\
  Str.lower (PathOps.suffix out) = target /\
  PathOps.suffix out <> PathOps.suffix src /\
  match output args with
  | Some o =>
      if String.eqb (Str.lower (PathOps.suffix o)) target then out = o
      else PathExn.with_suffix o target = inr out /\ PathOps.suffix out = target
  | None =>
      out = mkPath false ["output_resume" +:+ target] /\ PathOps.suffix out = target
  end.
Proof.
  intros Hr. split.
  { rewrite main_router. unfold bind at 1. by rewrite Hr. }
  unfold format_router, bind in Hr.
  destruct (main_source env args extras st) as [[src0| |] st1]; try done.
  rewrite route_run in Hr.
  destruct (negb (FS.path_exists src0 (world st1))); [done|].
  destruct (negb (supported (source_ext src0))); [done|].
  destruct (String.eqb _ (source_ext src0)) eqn:Hne; [done|].
  destruct (output_path _ _) as [e|out0] eqn:Hout; [done|].
  injection Hr as -> -> <- <-.
  pose proof (output_path_suffix _ _ _ _ Hout) as Hlow.
  split; [done|]. split; [done|]. split.
  - intros Heq. apply String.eqb_neq in Hne. apply Hne.
    rewrite <- Hlow. unfold source_ext. by rewrite Heq.
  - unfold output_path in Hout. destruct (output args) as [o|].
    + destruct (String.eqb (Str.lower (PathOps.suffix o)) _) eqn:He; simpl in Hout.
      * by injection Hout.
      * split; [done|]. by apply suffix_with_target in Hout.
    + split; [| by apply suffix_with_target in Hout].
      destruct (target_ext_cases (to args) (source_ext src)) as [Ht | Ht];
        rewrite Ht in Hout |- *; by injection Hout.
Qed.

End RouterClaims.

(** ** The conversion orchestrator *)

Section Orchestrator.

Variable env : Env.





Lemma events_since_after (st : State) (w : World) (evs : list Event) :
  events_since st (after st w evs) = evs.
Proof. unfold events_since, after. simpl. by rewrite drop_app_length. Qed.

Lemma after_after (st : State) (w w' : World) (evs evs' : list Event) :
  after (after st w evs) w' evs' = after st w' (evs ++ evs').
Proof. unfold after. simpl. by rewrite app_assoc. Qed.

Lemma after_nil (st : State) : after st (world st) [] = st.
Proof. destruct st. unfold after. simpl. by rewrite app_nil_r. Qed.

(** [convert_docx_to_pdf], case by case. *)
Lemma convert_docx_to_pdf_run (src dst : Path) (st : State) :
  let w1 := FS.mkdir_parents (PathOps.parent dst) (world st) in
  let tried := docx2pdf_convert env (PathOps.str src) (PathOps.str dst) w1 in
  let argv := soffice_argv env "pdf" src dst in
  let ran := subprocess_exec env argv tried.1 in
  let evs := [Mkdir (PathOps.parent dst); Docx2pdf (PathOps.str src) (PathOps.str dst)] in
  convert_docx_to_pdf env src dst st =
    match tried.2 with
    | None => (Return tt, after st tried.1 evs)
    | Some _ =>
        if negb (truthy (which env "soffice"))
        then (Raise (RuntimeError no_soffice_msg), after st tried.1 (evs ++ [Which "soffice"]))
        else if negb (ran.2 =? 0)
        then (Raise (CalledProcessError ran.2 argv),
              after st ran.1 (evs ++ [Which "soffice"; Run argv true false]))
        else (Return tt, after st ran.1 (evs ++ [Which "soffice"; Run argv true false]))
    end.
Proof.
  cbv zeta. unfold convert_docx_to_pdf, mkdir, docx_to_pdf, external, shutil_which,
    subprocess_run, try_except.
  unfold bind, emit, get_world, put_world, ret, raise, after, soffice_argv.
  cbn [fst snd world trace uploads].
  destruct (docx2pdf_convert env _ _ _) as [w2 [e|]]; cbn [fst snd world trace uploads];
    rewrite <- ?app_assoc; cbn [app]; [|done].
  destruct (negb (truthy (which env "soffice"))); cbn [fst snd world trace uploads];
    rewrite <- ?app_assoc; cbn [app]; [done|].
  destruct (subprocess_exec env _ w2) as [w3 rc]; cbn [fst snd world trace uploads andb].
  destruct (negb (rc =? 0)); cbn [fst snd world trace uploads];
    rewrite <- ?app_assoc; cbn [app]; done.
Qed.

(** The [pdf2docx] tier opens the source before anything else. *)
Lemma pdf2docx_tier_opens (src dst : Path) (st : State) :
  exists w rest, (pdf2docx_tier env src dst st).2
                 = after st w (Pdf2docxOpen (PathOps.str src) :: rest).
Proof.
  unfold pdf2docx_tier, PDF2DOCX, pdf_convert, pdf_close, external.
  unfold bind, emit, get_world, put_world, ret, raise, after.
  cbn [fst snd world trace uploads].
  destruct (pdf2docx_open env _ _); cbn [fst snd world trace uploads]; [by eauto|].
  destruct (pdf2docx_convert env _ _ _) as [w2 [e|]]; cbn [fst snd world trace uploads];
    rewrite <- ?app_assoc; cbn [app]; [by eauto|].
  destruct (pdf2docx_close env _ _); cbn [fst snd world trace uploads];
    rewrite <- ?app_assoc; cbn [app]; by eauto.
Qed.

Lemma with_suffix_raises_ValueError (p : Path) (s : string) (e : Exn) :
  PathExn.with_suffix p s = inl e -> exists msg, e = ValueError msg.
Proof.
  unfold PathExn.with_suffix.
  repeat match goal with |- context [if ?b then _ else _] => destruct b end;
    intros [= <-]; eauto.
Qed.

Lemma rename_error_kind (a b : Path) (w : World) (e : Exn) :
  FS.rename a b w = inl e -> is_CalledProcessError e = false.
Proof.
  unfold FS.rename.
  repeat match goal with
    | |- context [if ?c then _ else _] => destruct c
    | |- context [match files w !! a with _ => _ end] => destruct (files w !! a)
    end; by intros [= <-].
Qed.

(** A regular file is renamed within its directory unless a directory is in
    its way. *)
Lemma rename_file (a b : Path) (w : World) (c : string) :
  a <> b -> FS.below a b = false -> files w !! a = Some c -> b ∉ dirs w ->
  FS.rename a b w = inr (mkWorld (<[b := c]> (delete a (files w))) (dirs w)).
Proof.
  intros Hne Hbelow Ha Hb. unfold FS.rename.
  by rewrite (bool_decide_eq_false_2 _ Hne), Ha, Hbelow, (bool_decide_eq_false_2 _ Hb).
Qed.

Lemma rename_file_refused (a b : Path) (w : World) (c : string) :
  a <> b -> FS.below a b = false -> files w !! a = Some c -> b ∈ dirs w ->
  FS.rename a b w = inl (IsADirectoryError a b).
Proof.
  intros Hne Hbelow Ha Hb. unfold FS.rename.
  by rewrite (bool_decide_eq_false_2 _ Hne), Ha, Hbelow, (bool_decide_eq_true_2 _ Hb).
Qed.


Lemma starts_with_common (l k k' : list string) :
  FS.starts_with (l ++ k) (l ++ k') = FS.starts_with k k'.
Proof. induction l as [|x l IH]; [done|]. cbn. by rewrite String.eqb_refl, IH. Qed.

(** A path beside [p] is not above [p]. *)
Lemma sibling_not_below (p : Path) (n : string) :
  PathOps.child (PathOps.parent p) n <> p ->
  FS.below (PathOps.child (PathOps.parent p) n) p = false.
Proof.
  destruct p as [abs l]. unfold FS.below, PathOps.child, PathOps.parent.
  cbn [absolute parts]. intros Hne. apply andb_false_iff. right.
  induction l as [|x l' _] using rev_ind; [done|].
  rewrite List.removelast_last in *. rewrite starts_with_common. cbn.
  destruct (String.eqb_spec n x) as [->|]; [done|done].
Qed.

Lemma output_not_below (src dst lo : Path) (ext : string) :
  soffice_output src dst ext = Some lo -> lo <> dst -> FS.below lo dst = false.
Proof.
  unfold soffice_output. destruct (PathExn.with_suffix src ext); [done|].
  intros [= <-]. apply sibling_not_below.
Qed.

(** An entry that exists and is not a directory is a regular file. *)
Lemma existing_file (a : Path) (w : World) :
  FS.path_exists a w = true -> a ∉ dirs w -> exists c, files w !! a = Some c.
Proof.
  unfold FS.path_exists. intros H Hd.
  rewrite (bool_decide_eq_false_2 _ Hd), orb_false_r in H.
  by apply bool_decide_eq_true_1 in H as [c Hc]; eauto.
Qed.

(** [convert_pdf_to_docx], case by case. *)
Lemma convert_pdf_to_docx_run (src dst : Path) (st : State) :
  let w1 := FS.mkdir_parents (PathOps.parent dst) (world st) in
  let argv := soffice_argv env "docx" src dst in
  let ran := subprocess_exec env argv w1 in
  let evs := [Mkdir (PathOps.parent dst); Which "soffice"] in
  convert_pdf_to_docx env src dst st =
    if truthy (which env "soffice")
    then
      if negb (ran.2 =? 0)
      then pdf2docx_tier env src dst (after st ran.1 (evs ++ [Run argv true true]))
      else
        match PathExn.with_suffix src ".docx" with
        | inl e => (Raise e, after st ran.1 (evs ++ [Run argv true true]))
        | inr q =>
            let lo := PathOps.child (PathOps.parent dst) (PathOps.name q) in
            if (FS.path_exists lo ran.1 && negb (bool_decide (lo = dst)))%bool
            then
              match FS.rename lo dst ran.1 with
              | inr w3 =>
                  (Return tt,
                   after st w3 (evs ++ [Run argv true true; Exists lo; Rename lo dst]))
              | inl e =>
                  (Raise e,
                   after st ran.1 (evs ++ [Run argv true true; Exists lo; Rename lo dst]))
              end
            else (Return tt, after st ran.1 (evs ++ [Run argv true true; Exists lo]))
        end
    else pdf2docx_tier env src dst (after st w1 evs).
Proof.
  cbv zeta.
  unfold convert_pdf_to_docx, pdf2docx_tier, soffice_tier, PDF2DOCX, pdf_convert,
    pdf_close, external, mkdir, shutil_which, subprocess_run, try_except, path_exists,
    rename, lift_sum, soffice_argv, after.
  unfold bind, emit, get_world, put_world, ret, raise.
  cbn [fst snd world trace uploads].
  destruct (truthy (which env "soffice")); cbn [fst snd world trace uploads];
    rewrite <- ?app_assoc; cbn [app]; [|done].
  destruct (subprocess_exec env _ _) as [w2 rc]; cbn [fst snd world trace uploads andb].
  destruct (negb (rc =? 0)); cbn [fst snd world trace uploads is_CalledProcessError];
    rewrite <- ?app_assoc; cbn [app]; [done|].
  pose proof (with_suffix_raises_ValueError src ".docx") as Hv.
  destruct (PathExn.with_suffix src ".docx") as [e|q];
    cbn [lift_sum fst snd world trace uploads].
  { destruct (Hv e eq_refl) as [msg ->]. done. }
  destruct (FS.path_exists _ w2 && negb _)%bool; cbn [fst snd world trace uploads];
    rewrite <- ?app_assoc; cbn [app]; [|done].
  pose proof (rename_error_kind (PathOps.child (PathOps.parent dst) (PathOps.name q)) dst w2) as Hf.
  destruct (FS.rename _ dst w2) as [e|w3]; cbn [lift_sum fst snd world trace uploads];
    rewrite <- ?app_assoc; cbn [app]; [|done].
  by rewrite (Hf e eq_refl).
Qed.

End Orchestrator.

Section OrchestratorClaims.

Variable env : Env.

Lemma rename_of_existing (a b : Path) (w : World) :
  a <> b -> FS.below a b = false ->
  FS.path_exists a w = true -> a ∉ dirs w -> b ∉ dirs w ->
  exists w', FS.rename a b w = inr w'.
Proof.
  intros Hne Hbelow Hex Ha Hb. destruct (existing_file a w Hex Ha) as [c Hc].
  rewrite (rename_file a b w c Hne Hbelow Hc Hb). by eauto.
Qed.


(** C4, as amended.  When the destination's parent directories can be
    created, the office suite is found, exits with status 0 and has left its
    output (the source's base name with [.docx], in the destination's parent
    directory) at a path other than the destination, and the destination is
    not an existing directory, [convert_pdf_to_docx] returns after renaming
    that file: its content is at the destination, nothing is left at the
    office suite's path, and [pdf2docx] is not called. *)
Theorem soffice_output_renamed (src dst lo : Path) (st : State) (w2 : World)
    (content : string) :
  let argv := soffice_argv env "docx" src dst in
  truthy (which env "soffice") = true ->
  subprocess_exec env argv (FS.mkdir_parents (PathOps.parent dst) (world st)) = (w2, 0) ->
  soffice_output src dst ".docx" = Some lo ->
  files w2 !! lo = Some content ->
  lo <> dst ->
  FS.mkdir_blocked (PathOps.parent dst) (world st) = false ->
  dst ∉ dirs w2 ->
  let st' := (convert_pdf_to_docx env src dst st).2 in
  convert_pdf_to_docx env src dst st =
    (Return tt,
     after st (mkWorld (<[dst := content]> (delete lo (files w2))) (dirs w2))
       [Mkdir (PathOps.parent dst); Which "soffice"; Run argv true true;
        Exists lo; Rename lo dst]) /\
  files (world st') !! dst = Some content /\
  files (world st') !! lo = None /\
  (forall p, p <> dst -> p <> lo -> files (world st') !! p = files w2 !! p).
Proof.
  intros argv Hwhich Hran Hlo Hfile Hne _ Hdir. cbv zeta.
  pose proof (output_not_below _ _ _ _ Hlo Hne) as Hbelow.
  assert (convert_pdf_to_docx env src dst st =
    (Return tt,
     after st (mkWorld (<[dst := content]> (delete lo (files w2))) (dirs w2))
       [Mkdir (PathOps.parent dst); Which "soffice"; Run argv true true;
        Exists lo; Rename lo dst])) as Hrun.
  { rewrite convert_pdf_to_docx_run. cbv zeta. fold argv. rewrite Hwhich, Hran.
    cbn [fst snd Z.eqb negb]. unfold soffice_output in Hlo.
    destruct (PathExn.with_suffix src ".docx") as [e|q]; [done|].
    injection Hlo as Hlo. rewrite Hlo.
    rewrite (rename_file lo dst w2 content Hne Hbelow Hfile Hdir).
    unfold FS.path_exists. rewrite Hfile.
    rewrite bool_decide_eq_true_2 by eauto.
    rewrite (bool_decide_eq_false_2 _ Hne). done. }
  split; [done|]. rewrite Hrun. cbn [snd after world files].
  split; [by rewrite lookup_insert_eq|]. split.
  - rewrite lookup_insert_ne by done. by rewrite lookup_delete_eq.
  - intros p Hp1 Hp2. rewrite lookup_insert_ne by done. by rewrite lookup_delete_ne.
Qed.

(** X1.  When the destination's parent directories can be created, the
    office suite is found, exits with status 0 and has left its output where
    it names it, and the destination is not an existing directory,
    [convert_pdf_to_docx] returns and that content is at the destination,
    renamed there or written there by the office suite itself. *)
Theorem pdf_destination_exists (src dst lo : Path) (st : State) (w2 : World)
    (content : string) :
  truthy (which env "soffice") = true ->
  subprocess_exec env (soffice_argv env "docx" src dst)
    (FS.mkdir_parents (PathOps.parent dst) (world st)) = (w2, 0) ->
  soffice_output src dst ".docx" = Some lo ->
  files w2 !! lo = Some content ->
  FS.mkdir_blocked (PathOps.parent dst) (world st) = false ->
  dst ∉ dirs w2 ->
  (convert_pdf_to_docx env src dst st).1 = Return tt /\
  files (world (convert_pdf_to_docx env src dst st).2) !! dst = Some content.
Proof.
  intros Hwhich Hran Hlo Hfile _ Hdir.
  pose proof (output_not_below _ _ _ _ Hlo) as Hbelow.
  rewrite convert_pdf_to_docx_run. cbv zeta. rewrite Hwhich, Hran.
  cbn [fst snd Z.eqb negb]. unfold soffice_output in Hlo.
  destruct (PathExn.with_suffix src ".docx") as [e|q]; [done|].
  injection Hlo as Hlo. rewrite Hlo.
  unfold FS.path_exists. rewrite Hfile.
  rewrite bool_decide_eq_true_2 by eauto. cbn [orb andb].
  destruct (decide (lo = dst)) as [->|Hne].
  - rewrite bool_decide_eq_true_2 by done. done.
  - rewrite (bool_decide_eq_false_2 _ Hne). cbn [negb].
    rewrite (rename_file lo dst w2 content Hne (Hbelow Hne) Hfile Hdir).
    cbn [fst snd after world files]. by rewrite lookup_insert_eq.
Qed.

Lemma tier_invoked (src dst : Path) (st : State) (w : World) (evs : list Event) :
  Pdf2docxOpen (PathOps.str src)
    ∈ events_since st (pdf2docx_tier env src dst (after st w evs)).2.
Proof.
  destruct (pdf2docx_tier_opens env src dst (after st w evs)) as (w' & rest & ->).
  rewrite after_after, events_since_after. apply elem_of_app. right. apply list_elem_of_here.
Qed.

Lemma tier_events (src dst : Path) (st : State) (w : World) (evs : list Event) :
  exists rest, events_since st (pdf2docx_tier env src dst (after st w evs)).2
               = (evs ++ rest)%list.
Proof.
  destruct (pdf2docx_tier_opens env src dst (after st w evs)) as (w' & rest & ->).
  rewrite after_after, events_since_after. eauto.
Qed.

(** What [convert_pdf_to_docx] does once the office suite has exited with
    status 0: the calls it adds, and that it returns unless the source has
    no file name or a directory makes the rename fail. *)
Lemma soffice_success (src dst : Path) (st : State) (w2 : World) :
  let argv := soffice_argv env "docx" src dst in
  truthy (which env "soffice") = true ->
  subprocess_exec env argv (FS.mkdir_parents (PathOps.parent dst) (world st)) = (w2, 0) ->
  exists r w3 tail,
    convert_pdf_to_docx env src dst st =
      (r, after st w3 (Mkdir (PathOps.parent dst) :: Which "soffice"
                         :: Run argv true true :: tail)) /\
    (Pdf2docxOpen (PathOps.str src) ∉ tail) /\
    (Str.is_empty (PathOps.name src) = false ->
     dst ∉ dirs w2 ->
     (forall lo, soffice_output src dst ".docx" = Some lo -> lo ∉ dirs w2) ->
     r = Return tt).
Proof.
  intros argv Hwhich Hran. rewrite convert_pdf_to_docx_run. cbv zeta. fold argv.
  rewrite Hwhich, Hran. cbn [fst snd Z.eqb negb]. unfold soffice_output.
  destruct (PathExn.with_suffix src ".docx") as [e|q] eqn:Hq.
  { exists (Raise e), w2, []. split; [done|]. split; [apply not_elem_of_nil|].
    intros Hn. destruct (with_suffix_named src ".docx" (or_intror eq_refl) Hn) as [q Hq'].
    congruence. }
  destruct (FS.path_exists _ w2 && negb _)%bool eqn:Hc.
  - apply andb_prop in Hc as [Hex Hne].
    apply negb_true_iff, bool_decide_eq_false_1 in Hne.
    destruct (FS.rename _ dst w2) as [e|w3] eqn:Hr.
    + eexists (Raise e), w2, [_; _]. split; [done|]. split.
      { intros H. repeat (apply elem_of_cons in H as [H|H]; [discriminate|]).
        by apply elem_of_nil in H. }
      intros _ Hdst Hlo.
      destruct (rename_of_existing _ dst w2 Hne (sibling_not_below _ _ Hne) Hex
                  (Hlo _ eq_refl) Hdst) as [w3 Hw3].
      congruence.
    + eexists (Return tt), w3, [_; _]. split; [done|]. split; [|done].
      intros H. repeat (apply elem_of_cons in H as [H|H]; [discriminate|]).
      by apply elem_of_nil in H.
  - eexists (Return tt), w2, [_]. split; [done|]. split; [|done].
    intros H. repeat (apply elem_of_cons in H as [H|H]; [discriminate|]).
    by apply elem_of_nil in H.
Qed.

(** C5, as amended.  Where the destination's parent directories can be
    created, [convert_pdf_to_docx] starts the office suite first whenever
    [shutil.which] finds it; [pdf2docx] is called exactly when the office
    suite is not found or exits with a non-zero status, and then the outcome
    is that of the [pdf2docx] tier alone, the [CalledProcessError] being
    dropped; and, for a source path that has a file name, with neither the
    destination nor the office suite's output path a directory once the
    office suite has run, an exception reaches the caller only out of the
    [pdf2docx] tier. *)
Theorem pdf_to_docx_tiers (src dst : Path) (st : State) :
  FS.mkdir_blocked (PathOps.parent dst) (world st) = false ->
  let w1 := FS.mkdir_parents (PathOps.parent dst) (world st) in
  let argv := soffice_argv env "docx" src dst in
  let ran := subprocess_exec env argv w1 in
  let run := convert_pdf_to_docx env src dst st in
  let found := truthy (which env "soffice") in
  let invoked := Pdf2docxOpen (PathOps.str src) ∈ events_since st run.2 in
  (found = true ->
     exists rest, events_since st run.2 =
                  Mkdir (PathOps.parent dst) :: Which "soffice" :: Run argv true true :: rest) /\
  (invoked <-> found = false \/ ran.2 <> 0) /\
  (found = false ->
     run = pdf2docx_tier env src dst
             (after st w1 [Mkdir (PathOps.parent dst); Which "soffice"])) /\
  (found = true -> ran.2 <> 0 ->
     run = pdf2docx_tier env src dst
             (after st ran.1 [Mkdir (PathOps.parent dst); Which "soffice";
                              Run argv true true])) /\
  (Str.is_empty (PathOps.name src) = false ->
   dst ∉ dirs ran.1 ->
   (forall lo, soffice_output src dst ".docx" = Some lo -> lo ∉ dirs ran.1) ->
     forall e, run.1 = Raise e ->
       invoked /\ exists st2, (pdf2docx_tier env src dst st2).1 = Raise e).
Proof.
  intros _. cbv zeta.
  set (w1 := FS.mkdir_parents (PathOps.parent dst) (world st)).
  set (argv := soffice_argv env "docx" src dst).
  assert (truthy (which env "soffice") = false ->
          convert_pdf_to_docx env src dst st =
          pdf2docx_tier env src dst
            (after st w1 [Mkdir (PathOps.parent dst); Which "soffice"])) as Hnone.
  { intros Hw. rewrite convert_pdf_to_docx_run. cbv zeta. by rewrite Hw. }
  assert (truthy (which env "soffice") = true -> (subprocess_exec env argv w1).2 <> 0 ->
          convert_pdf_to_docx env src dst st =
          pdf2docx_tier env src dst
            (after st (subprocess_exec env argv w1).1
               [Mkdir (PathOps.parent dst); Which "soffice"; Run argv true true])) as Hfail.
  { intros Hw Hrc. rewrite convert_pdf_to_docx_run. cbv zeta. rewrite Hw.
    fold w1 argv. apply Z.eqb_neq in Hrc. by rewrite Hrc. }
  assert (truthy (which env "soffice") = true -> (subprocess_exec env argv w1).2 = 0 ->
          exists r w3 tail,
            convert_pdf_to_docx env src dst st =
              (r, after st w3 (Mkdir (PathOps.parent dst) :: Which "soffice"
                                 :: Run argv true true :: tail)) /\
            (Pdf2docxOpen (PathOps.str src) ∉ tail) /\
            (Str.is_empty (PathOps.name src) = false ->
             dst ∉ dirs (subprocess_exec env argv w1).1 ->
             (forall lo, soffice_output src dst ".docx" = Some lo ->
                         lo ∉ dirs (subprocess_exec env argv w1).1) ->
             r = Return tt)) as Hok.
  { intros Hw Hrc. apply (soffice_success src dst st (subprocess_exec env argv w1).1 Hw).
    fold w1 argv. rewrite <- Hrc. by destruct (subprocess_exec env argv w1). }
  destruct (truthy (which env "soffice")) eqn:Hw;
    [destruct (Z.eq_dec (subprocess_exec env argv w1).2 0) as [Hrc|Hrc]|].
  - destruct (Hok eq_refl Hrc) as (r & w3 & tail & Hrun & Htail & Hret).
    rewrite Hrun. cbn [fst snd]. rewrite events_since_after.
    split; [by eauto|]. split; [|split; [done|split; [done|]]].
    + split; [|intros [?|?]; done].
      intros H. repeat (apply elem_of_cons in H as [H|H]; [discriminate|]). done.
    + intros Hn Hdst Hlo e He. rewrite (Hret Hn Hdst Hlo) in He. done.
  - rewrite (Hfail eq_refl Hrc).
    split; [|split; [|split; [done|split; [done|]]]].
    + intros _. destruct (tier_events src dst st (subprocess_exec env argv w1).1
        [Mkdir (PathOps.parent dst); Which "soffice"; Run argv true true]) as [rest ->].
      by eauto.
    + split; [by auto | intros _; apply tier_invoked].
    + intros _ _ _ e He. split; [apply tier_invoked | by eauto].
  - rewrite (Hnone eq_refl).
    split; [done|]. split; [|split; [done|split; [done|]]].
    + split; [by auto | intros _; apply tier_invoked].
    + intros _ _ _ e He. split; [apply tier_invoked | by eauto].
Qed.

End OrchestratorClaims.

(** ** What a conversion may touch *)

Section Frame.

Variable env : Env.












End Frame.

(** ** The claims on concrete runs *)

Module Runs.

Import Sample.


(** C1.  On a Linux host [convert_docx_to_pdf] falls back to the office
    suite, which writes [/w/resume.pdf]; the function returns normally, yet
    nothing exists at the destination [/w/output_resume.pdf]: unlike
    [convert_pdf_to_docx], it does not rename the office suite's output. *)
Theorem docx_fallback_misses_destination :
  let run := convert_docx_to_pdf linux resume_docx output_pdf (start docx_disk) in
  run.1 = Return tt /\
  FS.path_exists output_pdf (world run.2) = false /\
  files (world run.2) !! resume_pdf = Some "converted" /\
  soffice_output resume_docx output_pdf ".pdf" = Some resume_pdf.
Proof. cbv zeta. repeat split; by vm_compute. Qed.

(** C9.  The office-suite call of [convert_docx_to_pdf] is made with
    [check=True] only: its output is not captured, while the call of
    [convert_pdf_to_docx] passes [capture_output=True]. *)
Theorem docx_fallback_streams_output :
  events_since (start docx_disk)
    (convert_docx_to_pdf linux resume_docx output_pdf (start docx_disk)).2 =
    [Mkdir work; Docx2pdf "/w/resume.docx" "/w/output_resume.pdf"; Which "soffice";
     Run linux_soffice_pdf true false] /\
  events_since (start pdf_disk)
    (convert_pdf_to_docx linux resume_pdf output_docx (start pdf_disk)).2 =
    [Mkdir work; Which "soffice"; Run linux_soffice_docx true true;
     Exists resume_docx; Rename resume_docx output_docx].
Proof. split; by vm_compute. Qed.

Lemma default_route_swaps_witness :
  target_ext None (source_ext resume_docx) = ".pdf" /\
  format_router linux (mkArgs (Some resume_docx) None None) [] (start docx_disk) =
    (Return (resume_docx, default_pdf, target_ext None (source_ext resume_docx)),
     routed (start docx_disk) resume_docx).
Proof.
  pose proof (default_route_swaps linux resume_docx eq_refl) as (Hdocx & _ & _ & Hmain).
  split; [exact (Hdocx eq_refl)|].
  exact (proj1 (Hmain (mkArgs (Some resume_docx) None None) [] (start docx_disk)
                  (start docx_disk) default_pdf eq_refl eq_refl eq_refl eq_refl)).
Defined.


Lemma soffice_output_renamed_witness :
  let st' := (convert_pdf_to_docx linux resume_pdf output_docx (start pdf_disk)).2 in
  convert_pdf_to_docx linux resume_pdf output_docx (start pdf_disk) =
    (Return tt,
     after (start pdf_disk)
       (mkWorld (<[output_docx := "converted"]>
                   (delete resume_docx
                      (files (write resume_docx "converted"
                                (FS.mkdir_parents work pdf_disk)))))
                (dirs (write resume_docx "converted" (FS.mkdir_parents work pdf_disk))))
       [Mkdir (PathOps.parent output_docx); Which "soffice";
        Run (soffice_argv linux "docx" resume_pdf output_docx) true true;
        Exists resume_docx; Rename resume_docx output_docx]) /\
  files (world st') !! output_docx = Some "converted" /\
  files (world st') !! resume_docx = None /\
  (forall p, p <> output_docx -> p <> resume_docx ->
     files (world st') !! p
     = files (write resume_docx "converted" (FS.mkdir_parents work pdf_disk)) !! p).
Proof.
  apply (soffice_output_renamed linux resume_pdf output_docx resume_docx (start pdf_disk)
           (write resume_docx "converted" (FS.mkdir_parents work pdf_disk)) "converted");
    [reflexivity | reflexivity | reflexivity | by vm_compute | by vm_compute
    | reflexivity | by vm_compute].
Defined.

(** C4, the claim as stated fails: the office suite is found, exits with
    status 0 and leaves [/w/resume.docx], a path other than the destination;
    the destination [/w/drafts.docx] is a directory, so the rename is
    refused: [IsADirectoryError] reaches the caller, nothing is at the
    destination, and the output stays where the office suite left it. *)
Lemma directory_at_destination :
  let run := convert_pdf_to_docx linux resume_pdf drafts (start drafts_disk) in
  let ran := subprocess_exec linux (soffice_argv linux "docx" resume_pdf drafts)
               (FS.mkdir_parents (PathOps.parent drafts) drafts_disk) in
  truthy (which linux "soffice") = true /\
  ran.2 = 0 /\
  soffice_output resume_pdf drafts ".docx" = Some resume_docx /\
  files ran.1 !! resume_docx = Some "converted" /\
  bool_decide (resume_docx = drafts) = false /\
  run.1 = Raise (IsADirectoryError resume_docx drafts) /\
  files (world run.2) !! drafts = None /\
  files (world run.2) !! resume_docx = Some "converted" /\
  events_since (start drafts_disk) run.2 =
    [Mkdir work; Which "soffice";
     Run ["/usr/bin/soffice"; "--headless"; "--convert-to"; "docx"; "--outdir"; "/w";
          "/w/resume.pdf"] true true;
     Exists resume_docx; Rename resume_docx drafts].
Proof. cbv zeta. repeat split; by vm_compute. Qed.

(** C5, the claim as stated fails: for the source [/], which has no file
    name, the office suite exits with status 0, [with_suffix] raises, and
    the [ValueError] reaches the caller although [pdf2docx] was never
    called. *)
Lemma nameless_source_raises_early :
  let run := convert_pdf_to_docx linux root output_docx (start pdf_disk) in
  run.1 = Raise (ValueError "PosixPath('/') has an empty name") /\
  events_since (start pdf_disk) run.2 =
    [Mkdir work; Which "soffice";
     Run ["/usr/bin/soffice"; "--headless"; "--convert-to"; "docx"; "--outdir"; "/w"; "/"]
       true true] /\
  (subprocess_exec linux (soffice_argv linux "docx" root output_docx)
     (FS.mkdir_parents work pdf_disk)).2 = 0.
Proof. cbv zeta. repeat split; by vm_compute. Qed.

Lemma pdf_to_docx_tiers_witness :
  let run := convert_pdf_to_docx broken resume_pdf output_docx (start pdf_disk) in
  let invoked := Pdf2docxOpen "/w/resume.pdf" ∈ events_since (start pdf_disk) run.2 in
  run.1 = Raise (LibraryError "not a PDF document") /\
  invoked /\
  exists st2, (pdf2docx_tier broken resume_pdf output_docx st2).1
              = Raise (LibraryError "not a PDF document").
Proof.
  cbv zeta. split; [reflexivity|].
  apply (proj2 (proj2 (proj2 (proj2
           (pdf_to_docx_tiers broken resume_pdf output_docx (start pdf_disk) eq_refl))))
           eq_refl);
    [by vm_compute | by intros lo [= <-]; vm_compute | reflexivity].
Defined.

(** C6, the claim as stated fails: [--to docx] on a [.docx] path that does
    not exist ends in [FileNotFoundError]. *)
Lemma same_format_missing_source :
  let args := mkArgs (Some missing_docx) None (Some to_docx) in
  main linux args [] (start docx_disk) =
    (Raise (FileNotFoundError missing_docx), routed (start docx_disk) missing_docx) /\
  target_ext (to args) (source_ext missing_docx) = source_ext missing_docx.
Proof. cbv zeta. split; by vm_compute. Qed.

Lemma same_format_rejected_witness :
  let args := mkArgs (Some resume_docx) None (Some to_docx) in
  main linux args [] (start docx_disk) =
    (Raise (ValueError same_type_msg), routed (start docx_disk) resume_docx) /\
  world (routed (start docx_disk) resume_docx) = world (start docx_disk) /\
  forall e, e ∈ trace (routed (start docx_disk) resume_docx) ->
            conversion_event e = true -> e ∈ trace (start docx_disk).
Proof.
  cbv zeta.
  apply (same_format_rejected linux (mkArgs (Some resume_docx) None (Some to_docx)) []
           (start docx_disk) (start docx_disk) resume_docx to_docx);
    reflexivity.
Defined.

(** C7, the claim as stated fails: a [.txt] path that does not exist ends in
    [FileNotFoundError], not in the unsupported-format error. *)
Lemma unsupported_missing_source :
  main linux (mkArgs (Some missing_txt) None None) [] (start docx_disk) =
    (Raise (FileNotFoundError missing_txt), routed (start docx_disk) missing_txt) /\
  supported (source_ext missing_txt) = false.
Proof. split; by vm_compute. Qed.

Lemma unsupported_source_rejected_witness :
  let args := mkArgs (Some notes_txt) None None in
  main linux args [] (start docx_disk) =
    (Raise (ValueError unsupported_msg), routed (start docx_disk) notes_txt) /\
  format_router linux args [] (start docx_disk) =
    (Raise (ValueError unsupported_msg), routed (start docx_disk) notes_txt) /\
  world (routed (start docx_disk) notes_txt) = world (start docx_disk) /\
  forall e, e ∈ trace (routed (start docx_disk) notes_txt) ->
            conversion_event e = true -> e ∈ trace (start docx_disk).
Proof.
  cbv zeta.
  apply (unsupported_source_rejected linux (mkArgs (Some notes_txt) None None) []
           (start docx_disk) (start docx_disk) notes_txt);
    reflexivity.
Defined.

(** C8, the claim as stated fails: with [-o /w/out.PDF] the conversion step
    is reached with an output path whose extension is [.PDF], while the
    target extension is [.pdf]. *)
Lemma upper_case_output_kept :
  let args := mkArgs (Some resume_docx) (Some out_upper) None in
  format_router linux args [] (start docx_disk) =
    (Return (resume_docx, out_upper, ".pdf"), routed (start docx_disk) resume_docx) /\
  PathOps.suffix out_upper = ".PDF" /\
  Docx2pdf "/w/resume.docx" "/w/out.PDF"
    ∈ trace (main linux args [] (start docx_disk)).2.
Proof.
  cbv zeta. split; [by vm_compute|]. split; [by vm_compute|].
  vm_compute. apply list_elem_of_lookup. by exists 3%nat.
Qed.

Lemma output_extension_matches_witness :
  let args := mkArgs (Some resume_docx) (Some out_upper) None in
  main linux args [] (start docx_disk) =
    conversion_step linux (resume_docx, out_upper, ".pdf")
      (routed (start docx_disk) resume_docx) /\
  ".pdf" = target_ext (to args) (source_ext resume_docx) /\
  Str.lower (PathOps.suffix out_upper) = ".pdf" /\
  PathOps.suffix out_upper <> PathOps.suffix resume_docx /\
  match output args with
  | Some o =>
      if String.eqb (Str.lower (PathOps.suffix o)) ".pdf" then out_upper = o
      else PathExn.with_suffix o ".pdf" = inr out_upper /\ PathOps.suffix out_upper = ".pdf"
  | None =>
      out_upper = mkPath false ["output_resume" +:+ ".pdf"]
      /\ PathOps.suffix out_upper = ".pdf"
  end.
Proof.
  cbv zeta.
  apply (output_extension_matches linux
           (mkArgs (Some resume_docx) (Some out_upper) None) []
           (start docx_disk) (routed (start docx_disk) resume_docx)
           resume_docx out_upper ".pdf").
  reflexivity.
Defined.





Lemma pdf_destination_exists_witness :
  (convert_pdf_to_docx linux resume_pdf resume_docx (start pdf_disk)).1 = Return tt /\
  files (world (convert_pdf_to_docx linux resume_pdf resume_docx (start pdf_disk)).2)
    !! resume_docx = Some "converted".
Proof.
  apply (pdf_destination_exists linux resume_pdf resume_docx resume_docx (start pdf_disk)
           (write resume_docx "converted" (FS.mkdir_parents work pdf_disk)) "converted");
    [reflexivity | reflexivity | reflexivity | by vm_compute | reflexivity
    | by vm_compute].
Defined.

End Runs.

(** * Further properties *)

(** ** Both directions of the orchestrator *)

Section MoreOrchestrator.

Variable env : Env.

(** The [pdf2docx] tier, case by case. *)
Lemma pdf2docx_tier_run (src dst : Path) (st : State) :
  let opened := pdf2docx_open env (PathOps.str src) (world st) in
  let conv := pdf2docx_convert env (PathOps.str src) (PathOps.str dst) (world st) in
  let closed := pdf2docx_close env (PathOps.str src) conv.1 in
  pdf2docx_tier env src dst st =
    match opened with
    | Some e => (Raise e, after st (world st) [Pdf2docxOpen (PathOps.str src)])
    | None =>
        match conv.2 with
        | Some e =>
            (Raise e, after st conv.1 [Pdf2docxOpen (PathOps.str src);
                                       Pdf2docxConvert (PathOps.str dst)])
        | None =>
            match closed with
            | Some e =>
                (Raise e, after st conv.1 [Pdf2docxOpen (PathOps.str src);
                                           Pdf2docxConvert (PathOps.str dst);
                                           Pdf2docxClose])
            | None =>
                (Return tt, after st conv.1 [Pdf2docxOpen (PathOps.str src);
                                             Pdf2docxConvert (PathOps.str dst);
                                             Pdf2docxClose])
            end
        end
    end.
Proof.
  cbv zeta. unfold pdf2docx_tier, PDF2DOCX, pdf_convert, pdf_close, external.
  unfold bind, emit, get_world, put_world, ret, raise, after.
  cbn [fst snd world trace uploads].
  destruct (pdf2docx_open env _ _); cbn [fst snd world trace uploads]; [done|].
  destruct (pdf2docx_convert env _ _ _) as [w2 [e|]]; cbn [fst snd world trace uploads];
    rewrite <- ?app_assoc; cbn [app]; [done|].
  destruct (pdf2docx_close env _ _); cbn [fst snd world trace uploads];
    rewrite <- ?app_assoc; cbn [app]; done.
Qed.

Ltac not_listed H :=
  repeat (apply elem_of_cons in H as [H|H]; [discriminate|]);
  try (by apply elem_of_nil in H).

(** X2.  Where the destination's parent directories can be created,
    [convert_docx_to_pdf] tries [docx2pdf] first; it looks for the office
    suite exactly when [docx2pdf] raised, and starts it exactly when it was
    then found; it returns exactly when [docx2pdf] succeeded or the office
    suite exited with status 0; and the exception of [docx2pdf] never
    reaches the caller: what is raised is the missing-office-suite
    [RuntimeError] or the [CalledProcessError] of the office suite. *)
Theorem docx_to_pdf_tiers (src dst : Path) (st : State) :
  FS.mkdir_blocked (PathOps.parent dst) (world st) = false ->
  let w1 := FS.mkdir_parents (PathOps.parent dst) (world st) in
  let tried := docx2pdf_convert env (PathOps.str src) (PathOps.str dst) w1 in
  let argv := soffice_argv env "pdf" src dst in
  let ran := subprocess_exec env argv tried.1 in
  let run := convert_docx_to_pdf env src dst st in
  let evs := events_since st run.2 in
  let found := truthy (which env "soffice") in
  (exists rest, evs = Mkdir (PathOps.parent dst)
                      :: Docx2pdf (PathOps.str src) (PathOps.str dst) :: rest) /\
  (Which "soffice" ∈ evs <-> tried.2 <> None) /\
  (Run argv true false ∈ evs <-> tried.2 <> None /\ found = true) /\
  (run.1 = Return tt <-> tried.2 = None \/ (found = true /\ ran.2 = 0)) /\
  (forall e, run.1 = Raise e ->
     tried.2 <> None /\
     (e = RuntimeError no_soffice_msg /\ found = false \/
      e = CalledProcessError ran.2 argv /\ found = true /\ ran.2 <> 0)).
Proof.
  intros _. cbv zeta. rewrite convert_docx_to_pdf_run. cbv zeta.
  set (w1 := FS.mkdir_parents (PathOps.parent dst) (world st)).
  destruct (docx2pdf_convert env _ _ w1) as [w2 r]. cbn [fst snd].
  set (argv := soffice_argv env "pdf" src dst).
  destruct r as [e0|].
  2:{ cbn [fst snd]. rewrite events_since_after.
      split; [by eauto|]. split; [split; [intros H; not_listed H | done]|].
      split; [split; [intros H; not_listed H | by intros [? _]]|].
      split; [split; [by left | done] | done]. }
  destruct (truthy (which env "soffice")) eqn:Hw; cbn [negb].
  2:{ cbn [fst snd]. rewrite events_since_after. cbn [app].
      split; [by eauto|].
      split; [split; [done | intros _; do 2 apply list_elem_of_further; apply list_elem_of_here]|].
      split; [split; [intros H; not_listed H | by intros [_ ?]]|].
      split; [split; [done | intros [?|[? _]]; done]|].
      intros e [= <-]. split; [done | by left]. }
  destruct (subprocess_exec env argv w2) as [w3 rc]. cbn [fst snd].
  assert (Which "soffice" ∈ [Mkdir (PathOps.parent dst);
            Docx2pdf (PathOps.str src) (PathOps.str dst); Which "soffice";
            Run argv true false]) as Hin1.
  { do 2 apply list_elem_of_further. apply list_elem_of_here. }
  assert (Run argv true false ∈ [Mkdir (PathOps.parent dst);
            Docx2pdf (PathOps.str src) (PathOps.str dst); Which "soffice";
            Run argv true false]) as Hin2.
  { do 3 apply list_elem_of_further. apply list_elem_of_here. }
  destruct (Z.eqb_spec rc 0) as [->|Hrc]; cbn [negb fst snd];
    rewrite events_since_after; cbn [app].
  - split; [by eauto|]. split; [done|]. split; [done|].
    split; [split; [by right | done] | done].
  - split; [by eauto|]. split; [done|]. split; [done|].
    split; [split; [done | intros [?|[_ ?]]; done]|].
    intros e [= <-]. split; [done | by right].
Qed.


(** Success of either converter leaves the destination, given delivering
    tools; for the DOCX to PDF direction the destination has to be the path
    the office suite writes to. *)
Lemma destination_after_success (src dst : Path) (st : State) :
  tools_deliver env src dst ->
  (soffice_output src dst ".pdf" = Some dst ->
   (convert_docx_to_pdf env src dst st).1 = Return tt ->
   is_Some (files (world (convert_docx_to_pdf env src dst st).2) !! dst)) /\
  ((convert_pdf_to_docx env src dst st).1 = Return tt ->
   is_Some (files (world (convert_pdf_to_docx env src dst st).2) !! dst)).
Proof.
  intros (Hdocx & Hspdf & Hsdocx & Hpdf). split.
  - intros Hname. rewrite convert_docx_to_pdf_run. cbv zeta.
    set (w1 := FS.mkdir_parents (PathOps.parent dst) (world st)).
    pose proof (Hdocx w1) as H1.
    destruct (docx2pdf_convert env _ _ w1) as [w2 r]. cbn [fst snd].
    destruct r as [e|]; [|by intros _; apply (H1 w2)].
    destruct (negb (truthy _)); [done|].
    pose proof (Hspdf w2) as H2.
    destruct (subprocess_exec env _ w2) as [w3 rc]. cbn [fst snd].
    destruct (Z.eqb_spec rc 0) as [->|Hrc]; cbn [negb]; [|done].
    intros _. destruct (H2 w3 eq_refl) as (lo & Hlo & Hfile). cbn [snd after world].
    congruence.
  - rewrite convert_pdf_to_docx_run. cbv zeta.
    set (w1 := FS.mkdir_parents (PathOps.parent dst) (world st)).
    assert (forall s, (pdf2docx_tier env src dst s).1 = Return tt ->
                      is_Some (files (world (pdf2docx_tier env src dst s).2) !! dst)) as Htier.
    { intros s. rewrite pdf2docx_tier_run. cbv zeta.
      destruct (pdf2docx_open env _ _); [done|].
      pose proof (Hpdf (world s)) as H3.
      destruct (pdf2docx_convert env _ _ _) as [w' [e|]]; cbn [fst snd]; [done|].
      destruct (pdf2docx_close env _ _); [done|]. intros _. by apply (H3 w'). }
    destruct (truthy _); [|apply Htier].
    pose proof (Hsdocx w1) as H2.
    destruct (subprocess_exec env _ w1) as [w2 rc]. cbn [fst snd].
    destruct (Z.eqb_spec rc 0) as [->|Hrc]; cbn [negb]; [|apply Htier].
    destruct (H2 w2 eq_refl) as (lo & Hlo & [c Hfile]).
    unfold soffice_output in Hlo.
    destruct (PathExn.with_suffix src ".docx") as [e|q]; [done|].
    injection Hlo as Hlo. rewrite Hlo.
    unfold FS.path_exists. rewrite Hfile.
    rewrite bool_decide_eq_true_2 by eauto. cbn [orb andb].
    destruct (decide (lo = dst)) as [->|Hne].
    + rewrite bool_decide_eq_true_2 by done. cbn. by eauto.
    + rewrite (bool_decide_eq_false_2 _ Hne). cbn [negb].
      pose proof (sibling_not_below dst (PathOps.name q)) as Hbelow.
      rewrite Hlo in Hbelow. specialize (Hbelow Hne).
      destruct (decide (dst ∈ dirs w2)) as [Hd|Hd].
      * by rewrite (rename_file_refused lo dst w2 c Hne Hbelow Hfile Hd).
      * rewrite (rename_file lo dst w2 c Hne Hbelow Hfile Hd). cbn.
        rewrite lookup_insert_eq. by eauto.
Qed.

(** X3.  When the destination of [convert_docx_to_pdf] is the path the
    office suite writes to (the source's base name with [.pdf] beside the
    destination, as for [src.with_suffix(".pdf")]) and the tools deliver, a
    normal return means that a file is at the destination. *)
Theorem docx_success_means_destination (src dst : Path) (st : State) :
  tools_deliver env src dst ->
  soffice_output src dst ".pdf" = Some dst ->
  (convert_docx_to_pdf env src dst st).1 = Return tt ->
  is_Some (files (world (convert_docx_to_pdf env src dst st).2) !! dst).
Proof. intros Ht. apply (destination_after_success src dst st Ht). Qed.

(** X4.  When the tools deliver, a normal return of [convert_pdf_to_docx]
    means that a file is at the destination, whichever tier produced it and
    whatever the destination is called. *)
Theorem pdf_success_means_destination (src dst : Path) (st : State) :
  tools_deliver env src dst ->
  (convert_pdf_to_docx env src dst st).1 = Return tt ->
  is_Some (files (world (convert_pdf_to_docx env src dst st).2) !! dst).
Proof. intros Ht. apply (destination_after_success src dst st Ht). Qed.


End MoreOrchestrator.

(** ** The command line: what [main] does around the conversion *)

Section MoreMain.

Variable env : Env.


(** X6.  Called without an input path outside Colab, [main] raises the
    [ValueError] asking for a path; apart from the note about ignored
    arguments nothing has happened. *)
Theorem main_without_input (args : Args) (extras : list string) (st : State) :
  input args = None ->
  colab_files env = false ->
  main env args extras st =
    (Raise (ValueError no_input_msg), after st (world st) (announced extras)).
Proof.
  intros Hin Hcolab. rewrite main_router.
  unfold format_router, main_source, _prompt_for_file, announced.
  rewrite Hin, Hcolab. unfold bind, print, emit, ret, raise, after. cbn [negb].
  destruct (bool_decide (extras = [])); cbn [negb fst snd world trace uploads]; [|done].
  destruct st. cbn. by rewrite app_nil_r.
Qed.

(** X7.  When the source does not exist, [main] raises [FileNotFoundError]
    for the resolved path, whatever the extension, [--to] and [-o] are; no
    conversion has been started and the file store is as before. *)
Theorem missing_source_raises (args : Args) (extras : list string) (st st1 : State)
    (src : Path) :
  main_source env args extras st = (Return src, st1) ->
  FS.path_exists src (world st1) = false ->
  main env args extras st = (Raise (FileNotFoundError src), routed st1 src) /\
  world (routed st1 src) = world st /\
  forall e, e ∈ trace (routed st1 src) -> conversion_event e = true -> e ∈ trace st.
Proof.
  intros Hs Hex. split; [| by apply (no_conversion_so_far env _ _ _ _ _ Hs)].
  rewrite (main_from_source env _ _ _ _ _ Hs). unfold bind. by rewrite route_run, Hex.
Qed.

Lemma router_returns (args : Args) (extras : list string) (st st' : State)
    (src out : Path) (target : string) :
  format_router env args extras st = (Return (src, out, target), st') ->
  exists st1,
    main_source env args extras st = (Return src, st1) /\
    st' = routed st1 src /\
    FS.path_exists src (world st1) = true /\
    supported (source_ext src) = true /\
    target = target_ext (to args) (source_ext src) /\
    String.eqb target (source_ext src) = false /\
    output_path (output args) target = inr out.
Proof.
  unfold format_router, bind.
  destruct (main_source env args extras st) as [[src0| |] st1]; try done.
  rewrite route_run.
  destruct (FS.path_exists src0 (world st1)) eqn:Hex; cbn [negb]; [|done].
  destruct (supported (source_ext src0)) eqn:Hsup; cbn [negb]; [|done].
  destruct (String.eqb _ (source_ext src0)) eqn:Hne; [done|].
  destruct (output_path _ _) as [e|out0] eqn:Hout; [done|].
  intros H. injection H as <- <- <- <-. exists st1. by repeat split.
Qed.

(** X8.  [--to] never changes what a conversion does: whenever [main]
    reaches the conversion step, the target is the one inferred from the
    source's extension, a [.docx] source goes to [convert_docx_to_pdf] and a
    [.pdf] source to [convert_pdf_to_docx], and the same call without
    [--to] routes identically. *)
Theorem override_is_redundant (args : Args) (extras : list string) (st st' : State)
    (src out : Path) (target : string) :
  format_router env args extras st = (Return (src, out, target), st') ->
  target = target_ext None (source_ext src) /\
  (source_ext src = ".docx" <-> target = ".pdf") /\
  (source_ext src = ".pdf" <-> target = ".docx") /\
  format_router env (mkArgs (input args) (output args) None) extras st =
    (Return (src, out, target), st') /\
  main env (mkArgs (input args) (output args) None) extras st = main env args extras st.
Proof.
  intros Hr. pose proof Hr as Hr0.
  apply router_returns in Hr as (st1 & Hs & -> & Hex & Hsup & Ht & Hne & Hout).
  assert (target = target_ext None (source_ext src)) as Hdef.
  { apply String.eqb_neq in Hne.
    destruct (supported_cases _ Hsup) as [He|He]; rewrite He in *;
      destruct (target_ext_cases (to args) (source_ext src)) as [Hc|Hc];
      rewrite He in Hc; rewrite <- Ht in Hc; subst target; try done; by rewrite Hc. }
  assert (format_router env (mkArgs (input args) (output args) None) extras st =
            (Return (src, out, target), routed st1 src)) as Hr'.
  { assert (main_source env (mkArgs (input args) (output args) None) extras st =
              (Return src, st1)) as Hs' by exact Hs.
    unfold format_router, bind. rewrite Hs', route_run, Hex, Hsup. cbn [negb to output].
    rewrite <- Hdef, Hne. by rewrite Hout. }
  split; [done|]. split; [|split; [|split; [done|]]].
  - rewrite Hdef. destruct (supported_cases _ Hsup) as [He|He]; by rewrite He.
  - rewrite Hdef. destruct (supported_cases _ Hsup) as [He|He]; by rewrite He.
  - rewrite !main_router. unfold bind. by rewrite Hr', Hr0.
Qed.

(** Neither converter prints. *)
Lemma converter_prints_nothing (target : string) (src out : Path) (st : State) (line : string) :
  Print line ∉ events_since st (converter env target src out st).2.
Proof.
  assert (forall s w evs, Print line ∉ evs ->
            Print line ∉ events_since s (pdf2docx_tier env src out (after s w evs)).2) as Htier.
  { intros s w evs Hevs. rewrite pdf2docx_tier_run. cbv zeta.
    destruct (pdf2docx_open env _ _); [|destruct (pdf2docx_convert env _ _ _) as [w' [e|]];
      [|destruct (pdf2docx_close env _ _)]];
      cbn [fst snd]; rewrite after_after, events_since_after;
      rewrite elem_of_app; intros [H|H]; try done;
      repeat (apply elem_of_cons in H as [H|H]; [discriminate|]); by apply elem_of_nil in H. }
  unfold converter. destruct (String.eqb target ".pdf").
  - rewrite convert_docx_to_pdf_run. cbv zeta.
    destruct (docx2pdf_convert env _ _ _) as [w2 [e|]]; cbn [fst snd];
      [destruct (negb (truthy _));
         [|destruct (subprocess_exec env _ w2) as [w3 rc]; cbn [fst snd];
           destruct (negb (rc =? 0))]|];
      cbn [snd]; rewrite events_since_after; cbn [app]; intros H;
      repeat (apply elem_of_cons in H as [H|H]; [discriminate|]); by apply elem_of_nil in H.
  - rewrite convert_pdf_to_docx_run. cbv zeta.
    assert (Print line ∉ [Mkdir (PathOps.parent out); Which "soffice"]) as H0.
    { intros H. repeat (apply elem_of_cons in H as [H|H]; [discriminate|]).
      by apply elem_of_nil in H. }
    destruct (truthy _); [|by apply Htier].
    destruct (subprocess_exec env _ _) as [w2 rc]. cbn [fst snd].
    destruct (negb (rc =? 0)).
    { apply Htier. cbn [app]. intros H.
      repeat (apply elem_of_cons in H as [H|H]; [discriminate|]). by apply elem_of_nil in H. }
    destruct (PathExn.with_suffix src ".docx") as [e|q];
      [|destruct (FS.path_exists _ w2 && negb _)%bool;
        [destruct (FS.rename _ out w2)|]];
      cbn [snd]; rewrite events_since_after; cbn [app]; intros H;
      repeat (apply elem_of_cons in H as [H|H]; [discriminate|]); by apply elem_of_nil in H.
Qed.

(** A converter only adds to the trace. *)
Lemma converter_extends (target : string) (src out : Path) (st : State) :
  exists evs, trace (converter env target src out st).2 = (trace st ++ evs)%list.
Proof.
  assert (forall w evs0, exists evs,
            trace (pdf2docx_tier env src out (after st w evs0)).2 = (trace st ++ evs)%list)
    as Htier.
  { intros w evs0.
    destruct (pdf2docx_tier_opens env src out (after st w evs0)) as (w' & rest & ->).
    cbn. rewrite <- app_assoc. eauto. }
  unfold converter. destruct (String.eqb target ".pdf").
  - rewrite convert_docx_to_pdf_run. cbv zeta.
    destruct (docx2pdf_convert env _ _ _) as [w2 [e|]]; cbn [fst snd];
      [destruct (negb (truthy _));
         [|destruct (subprocess_exec env _ w2) as [w3 rc]; cbn [fst snd];
           destruct (negb (rc =? 0))]|];
      cbn; eauto.
  - rewrite convert_pdf_to_docx_run. cbv zeta.
    destruct (truthy _); [|by apply Htier].
    destruct (subprocess_exec env _ _) as [w2 rc]. cbn [fst snd].
    destruct (negb (rc =? 0)); [by apply Htier|].
    destruct (PathExn.with_suffix src ".docx") as [e|q];
      [|destruct (FS.path_exists _ w2 && negb _)%bool;
        [destruct (FS.rename _ out w2)|]];
      cbn; eauto.
Qed.

(** Neither converter waits for an upload. *)
Lemma converter_not_pending (target : string) (src out : Path) (st : State) :
  (converter env target src out st).1 <> Pending.
Proof.
  assert (forall s, (pdf2docx_tier env src out s).1 <> Pending) as Htier.
  { intros s. rewrite pdf2docx_tier_run. cbv zeta.
    destruct (pdf2docx_open env _ _); [done|].
    destruct (pdf2docx_convert env _ _ _) as [w' [e|]]; [done|].
    by destruct (pdf2docx_close env _ _). }
  unfold converter. destruct (String.eqb target ".pdf").
  - rewrite convert_docx_to_pdf_run. cbv zeta.
    destruct (docx2pdf_convert env _ _ _) as [w2 [e|]]; cbn [fst snd]; [|done].
    destruct (negb (truthy _)); [done|].
    destruct (subprocess_exec env _ w2) as [w3 rc]. cbn [fst snd].
    by destruct (negb (rc =? 0)).
  - rewrite convert_pdf_to_docx_run. cbv zeta.
    destruct (truthy _); [|apply Htier].
    destruct (subprocess_exec env _ _) as [w2 rc]. cbn [fst snd].
    destruct (negb (rc =? 0)); [apply Htier|].
    destruct (PathExn.with_suffix src ".docx") as [e|q]; [done|].
    destruct (FS.path_exists _ w2 && negb _)%bool; [|done].
    by destruct (FS.rename _ out w2).
Qed.

(** X9.  Once routed, [main] ends as the conversion ends: it returns exactly
    when the converter returned and then prints the line naming the output
    path as its last call; when the converter raised, [main] raises the same
    exception and that line is never printed. *)
Theorem main_reports_the_conversion (args : Args) (extras : list string) (st st' : State)
    (src out : Path) (target : string) :
  format_router env args extras st = (Return (src, out, target), st') ->
  let conv := converter env target src out st' in
  let run := main env args extras st in
  run.1 = conv.1 /\
  (conv.1 = Return tt -> run.2 = after conv.2 (world conv.2) [Print (saved_msg out)]) /\
  (forall e, conv.1 = Raise e -> run = (Raise e, conv.2)) /\
  (Print (saved_msg out) ∈ events_since st' run.2 <-> run.1 = Return tt).
Proof.
  intros Hr. cbv zeta.
  assert (main env args extras st =
            bind (converter env target src out) (fun _ => print (saved_msg out)) st') as ->.
  { rewrite main_router. unfold bind at 1. by rewrite Hr. }
  pose proof (converter_prints_nothing target src out st' (saved_msg out)) as Hnp.
  pose proof (converter_not_pending target src out st') as Hpend.
  unfold bind, print, emit.
  destruct (converter env target src out st') as [[[]|e|] s2] eqn:Hc;
    cbn [fst snd] in *; [| |done].
  - split; [done|]. split; [by intros _; unfold after|]. split; [done|].
    split; [done|]. intros _.
    unfold events_since in *. cbn [trace].
    destruct (converter_extends target src out st') as [evs Hevs].
    rewrite Hc in Hevs. cbn [snd] in Hevs.
    rewrite Hevs, <- app_assoc, drop_app_length.
    apply elem_of_app. right. apply list_elem_of_here.
  - split; [done|]. split; [done|]. split; [by intros ? [= <-]|]. split; [done|].
    done.
Qed.

(** X10.  An output path without a file name ([-o .] or [-o /]) makes [main]
    raise the [ValueError] of [with_suffix] once the source has passed every
    check; no conversion has been started. *)
Theorem nameless_output_rejected (args : Args) (extras : list string) (st st1 : State)
    (src o : Path) :
  main_source env args extras st = (Return src, st1) ->
  FS.path_exists src (world st1) = true ->
  supported (source_ext src) = true ->
  target_ext (to args) (source_ext src) <> source_ext src ->
  output args = Some o ->
  PathOps.name o = "" ->
  main env args extras st =
    (Raise (ValueError ("PosixPath('" +:+ PathOps.str o +:+ "') has an empty name")),
     routed st1 src) /\
  forall e, e ∈ trace (routed st1 src) -> conversion_event e = true -> e ∈ trace st.
Proof.
  intros Hs Hex Hsup Hne Hout Hname.
  split; [| by apply (no_conversion_so_far env _ _ _ _ _ Hs)].
  rewrite (main_from_source env _ _ _ _ _ Hs). unfold bind.
  rewrite route_run, Hex, Hsup. cbn [negb].
  apply String.eqb_neq in Hne. rewrite Hne, Hout. unfold output_path.
  assert (PathOps.suffix o = "") as Hsuf by (unfold PathOps.suffix; by rewrite Hname).
  rewrite Hsuf.
  destruct (target_ext_cases (to args) (source_ext src)) as [-> | ->];
    cbn [Str.lower String.eqb negb]; unfold PathExn.with_suffix;
    cbn -[PathOps.name PathOps.str String.append]; by rewrite Hname.
Qed.

(** X11.  [main] never aims a conversion at its own source: the output path
    differs from the source, and so does the path the office suite writes
    to, which exists as a name because the source has one. *)
Theorem router_keeps_source_apart (args : Args) (extras : list string) (st st' : State)
    (src out : Path) (target : string) :
  format_router env args extras st = (Return (src, out, target), st') ->
  out <> src /\
  exists lo, soffice_output src out target = Some lo /\ lo <> src /\
             PathOps.suffix lo = target.
Proof.
  intros Hr. apply router_returns in Hr as (st1 & Hs & -> & Hex & Hsup & Ht & Hne & Hout).
  apply String.eqb_neq in Hne.
  assert (PathOps.suffix src <> target) as Hsrc.
  { intros Heq. apply Hne. unfold source_ext. rewrite Heq. subst target.
    symmetry. apply lower_target. }
  split.
  - intros ->. apply Hne. subst target.
    rewrite <- (output_path_suffix _ _ _ _ Hout) at 1. done.
  - assert (Str.is_empty (PathOps.name src) = false) as Hn.
    { destruct (PathOps.name src) eqn:Hname; [|done]. exfalso.
      unfold source_ext, PathOps.suffix in Hsup. rewrite Hname in Hsup. done. }
    assert (target = ".pdf" \/ target = ".docx") as Hcases
      by (subst target; apply target_ext_cases).
    destruct (with_suffix_named src target Hcases Hn) as [q Hq].
    unfold soffice_output. rewrite Hq. eexists. split; [done|].
    assert (PathOps.suffix (PathOps.child (PathOps.parent out) (PathOps.name q)) = target)
      as Hlo.
    { unfold PathOps.suffix at 1, PathOps.child. rewrite name_with_last.
      fold (PathOps.suffix q). subst target. by apply suffix_with_target in Hq. }
    split; [|done]. intros Heq. apply Hsrc. by rewrite <- Heq.
Qed.

(** X12.  The output path [main] computes is a fixed point of the
    computation: given back as [-o] it is kept as it is; and a caller's path
    keeps its directory, only its file name may change. *)
Theorem output_path_stable (o : option Path) (t : option Choice) (src_ext : string)
    (out : Path) :
  output_path o (target_ext t src_ext) = inr out ->
  output_path (Some out) (target_ext t src_ext) = inr out /\
  forall p, o = Some p ->
    PathOps.parent out = PathOps.parent p /\ absolute out = absolute p.
Proof.
  intros Hout. split.
  - unfold output_path. rewrite (output_path_suffix _ _ _ _ Hout).
    by rewrite String.eqb_refl.
  - intros p ->. unfold output_path in Hout.
    destruct (negb _); [|by injection Hout as <-].
    revert Hout. unfold PathExn.with_suffix.
    repeat match goal with |- context [if ?b then _ else _] => destruct b end;
      intros [= <-]; try done.
    all: unfold PathOps.parent; cbn [absolute parts]; by rewrite List.removelast_last.
Qed.

End MoreMain.

(** ** The upload prompt *)

Section Prompt.

Variable env : Env.





Lemma upload_loop_nil (st : State) :
  upload_loop env [] st = (Pending, asked st (uploads st) []).
Proof.
  cbn [upload_loop]. unfold bind, print, emit, asked, please_msg.
  cbn [fst snd world trace uploads]. by rewrite <- app_assoc.
Qed.

Lemma upload_loop_cons (uploaded : list string) (rest : list (list string)) (st : State) :
  upload_loop env (uploaded :: rest) st =
    if turned_down env uploaded
    then upload_loop env rest (asked st rest [Print (turn_down_msg uploaded)])
    else (Return (uploaded_path env uploaded),
          asked st rest [Print ("✓ Uploaded: " +:+ hd "" uploaded)]).
Proof.
  cbn [upload_loop]. unfold bind, print, emit, asked, turned_down, uploaded_path.
  cbn [fst snd world trace uploads].
  unfold please_msg.
  destruct uploaded as [|name keys]; cbn [hd turn_down_msg].
  - cbn [world trace uploads]. by rewrite <- !app_assoc.
  - destruct (negb _); cbn [fst snd world trace uploads]; by rewrite <- !app_assoc.
Qed.

Lemma upload_loop_returns (pending : list (list string)) (st st' : State) (path : Path) :
  upload_loop env pending st = (Return path, st') ->
  supported (source_ext path) = true /\
  exists uploaded, uploaded ∈ pending /\ turned_down env uploaded = false /\
                   path = uploaded_path env uploaded.
Proof.
  revert st. induction pending as [|uploaded rest IH]; intros st.
  - by rewrite upload_loop_nil.
  - rewrite upload_loop_cons. destruct (turned_down env uploaded) eqn:Htd.
    + intros H. destruct (IH _ H) as (Hsup & u & Hu & Hd & Hp).
      split; [done|]. exists u. split; [by apply list_elem_of_further | done].
    + intros [= <- <-]. split.
      * destruct uploaded as [|name keys]; [done|]. unfold turned_down in Htd.
        by apply negb_false_iff in Htd.
      * exists uploaded. split; [apply list_elem_of_here | done].
Qed.

(** X13.  The prompt only ever returns the resolved path of the first file
    of an upload, with a supported extension, and it returns only in
    Colab. *)
Theorem prompt_yields_supported (st st' : State) (path : Path) :
  _prompt_for_file env st = (Return path, st') ->
  colab_files env = true /\
  supported (source_ext path) = true /\
  exists name keys, (name :: keys) ∈ uploads st /\
                    path = resolve env (PathOps.of_string name).
Proof.
  unfold _prompt_for_file. destruct (colab_files env); cbn [negb]; [|done].
  intros H. destruct (upload_loop_returns _ _ _ _ H) as (Hsup & u & Hu & Hd & Hp).
  split; [done|]. split; [done|].
  destruct u as [|name keys]; [done|]. by exists name, keys.
Qed.

Lemma upload_loop_skips (bad rest : list (list string)) (good : list string) (st : State) :
  Forall (fun u => turned_down env u = true) bad ->
  turned_down env good = false ->
  exists evs,
    upload_loop env (bad ++ good :: rest) st =
      (Return (uploaded_path env good), mkState (world st) (trace st ++ evs) rest) /\
    length (filter (fun e => is_Upload e = true) evs) = S (length bad).
Proof.
  intros Hbad Hgood. revert st. induction Hbad as [|u bad Hu Hbad IH]; intros st.
  - cbn [app]. rewrite upload_loop_cons, Hgood. unfold asked. eexists. split; [done|]. done.
  - cbn [app]. rewrite upload_loop_cons, Hu.
    destruct (IH (asked st (bad ++ good :: rest) [Print (turn_down_msg u)]))
      as (evs & -> & Hlen).
    unfold asked. cbn [world trace]. rewrite <- app_assoc. eexists. split; [done|].
    cbn [app]. rewrite !filter_cons. cbn [is_Upload].
    repeat first [rewrite decide_False by done | rewrite decide_True by done].
    cbn [length]. by rewrite Hlen.
Qed.

(** X14.  The prompt asks again for every upload it turns down (an empty
    one, or one whose first file is not a DOCX or PDF) and returns the first
    acceptable one: it has then called [upload()] once per upload turned down
    and once more, and the uploads after it are still to come. *)
Theorem prompt_takes_first_acceptable (st : State) (bad rest : list (list string))
    (name : string) (keys : list string) :
  colab_files env = true ->
  uploads st = (bad ++ (name :: keys) :: rest)%list ->
  Forall (fun u => turned_down env u = true) bad ->
  turned_down env (name :: keys) = false ->
  let run := _prompt_for_file env st in
  run.1 = Return (resolve env (PathOps.of_string name)) /\
  uploads run.2 = rest /\
  length (filter (fun e => is_Upload e = true) (events_since st run.2)) = S (length bad).
Proof.
  intros Hcolab Hup Hbad Hgood. cbv zeta. unfold _prompt_for_file.
  rewrite Hcolab. cbn [negb]. cbv beta. rewrite Hup.
  destruct (upload_loop_skips bad rest (name :: keys) st Hbad Hgood) as (evs & -> & Hlen).
  cbn [fst snd uploads world]. split; [done|]. split; [done|].
  unfold events_since. cbn [trace]. by rewrite drop_app_length.
Qed.

Lemma upload_loop_waits (pending : list (list string)) (st : State) :
  ((upload_loop env pending st).1 = Pending <->
   Forall (fun u => turned_down env u = true) pending) /\
  (forall e, (upload_loop env pending st).1 <> Raise e) /\
  (uploads st = pending -> (upload_loop env pending st).1 = Pending ->
   uploads (upload_loop env pending st).2 = []).
Proof.
  revert st. induction pending as [|uploaded rest IH]; intros st.
  - rewrite upload_loop_nil. cbn. split; [by split | by split].
  - rewrite upload_loop_cons. destruct (turned_down env uploaded) eqn:Htd.
    + destruct (IH (asked st rest [Print (turn_down_msg uploaded)])) as (Hiff & Hraise & Hup).
      split; [|split; [done|]].
      * rewrite Hiff. split; [by constructor | by inversion 1].
      * intros _. by apply Hup.
    + cbn. split; [|by split]. split; [done|]. inversion 1; congruence.
Qed.

(** X15.  In Colab the prompt never raises: it keeps waiting exactly when
    every upload it is given is turned down, having used them all up, and
    otherwise returns. *)
Theorem prompt_waits_or_returns (st : State) :
  colab_files env = true ->
  let run := _prompt_for_file env st in
  (run.1 = Pending <-> Forall (fun u => turned_down env u = true) (uploads st)) /\
  (forall e, run.1 <> Raise e) /\
  (run.1 = Pending -> uploads run.2 = []).
Proof.
  intros Hcolab. cbv zeta. unfold _prompt_for_file. rewrite Hcolab. cbn [negb].
  destruct (upload_loop_waits (uploads st) st) as (Hiff & Hraise & Hup).
  split; [done|]. split; [done|]. by apply Hup.
Qed.

End Prompt.

(** ** The set-up at import *)

Section MoreImport.

Variable env : Env.

(** [install_libreoffice], case by case. *)
Lemma install_libreoffice_run (st : State) :
  let up := subprocess_exec env apt_update (world st) in
  let inst := subprocess_exec env apt_install up.1 in
  install_libreoffice env st =
    if negb (up.2 =? 0)
    then (Raise (CalledProcessError up.2 apt_update),
          after st up.1 [Print installing_msg; Run apt_update true false])
    else if negb (inst.2 =? 0)
    then (Raise (CalledProcessError inst.2 apt_install),
          after st inst.1 [Print installing_msg; Run apt_update true false;
                           Run apt_install true false])
    else (Return tt,
          after st inst.1 [Print installing_msg; Run apt_update true false;
                           Run apt_install true false; Print installed_msg]).
Proof.
  cbv zeta. unfold install_libreoffice, subprocess_run, print.
  unfold bind, emit, get_world, put_world, ret, raise, after.
  cbn [fst snd world trace uploads].
  destruct (subprocess_exec env apt_update _) as [w1 rc1]. cbn [fst snd world trace uploads andb].
  destruct (negb (rc1 =? 0)); cbn [fst snd world trace uploads];
    rewrite <- ?app_assoc; cbn [app]; [done|].
  destruct (subprocess_exec env apt_install _) as [w2 rc2].
  cbn [fst snd world trace uploads andb].
  destruct (negb (rc2 =? 0)); cbn [fst snd world trace uploads];
    rewrite <- ?app_assoc; cbn [app]; done.
Qed.

(** X16.  [install_libreoffice] stops at the first command that fails: the
    package is installed only after [apt-get update] exited with status 0,
    the closing message is printed and the function returns only when both
    commands did, and otherwise the [CalledProcessError] of the failed
    command is raised. *)
Theorem install_stops_at_first_failure (st : State) :
  let up := subprocess_exec env apt_update (world st) in
  let inst := subprocess_exec env apt_install up.1 in
  let run := install_libreoffice env st in
  let evs := events_since st run.2 in
  (Run apt_install true false ∈ evs <-> up.2 = 0) /\
  (Print installed_msg ∈ evs <-> up.2 = 0 /\ inst.2 = 0) /\
  (run.1 = Return tt <-> up.2 = 0 /\ inst.2 = 0) /\
  (up.2 <> 0 -> run.1 = Raise (CalledProcessError up.2 apt_update)) /\
  (up.2 = 0 -> inst.2 <> 0 -> run.1 = Raise (CalledProcessError inst.2 apt_install)).
Proof.
  cbv zeta. rewrite install_libreoffice_run. cbv zeta.
  destruct (subprocess_exec env apt_update _) as [w1 rc1]. cbn [fst snd].
  destruct (Z.eqb_spec rc1 0) as [->|H1]; cbn [negb].
  2:{ cbn [fst snd]. rewrite events_since_after.
      split; [split; [intros H | done]|].
      { repeat (apply elem_of_cons in H as [H|H]; [discriminate|]). by apply elem_of_nil in H. }
      split; [split; [intros H | by intros [? _]]|].
      { repeat (apply elem_of_cons in H as [H|H]; [discriminate|]). by apply elem_of_nil in H. }
      split; [split; [done | by intros [? _]] | done]. }
  destruct (subprocess_exec env apt_install w1) as [w2 rc2]. cbn [fst snd].
  destruct (Z.eqb_spec rc2 0) as [->|H2]; cbn [negb fst snd]; rewrite events_since_after.
  - split; [split; [done | intros _; do 2 apply list_elem_of_further; apply list_elem_of_here]|].
    split; [split; [done | intros _; do 3 apply list_elem_of_further; apply list_elem_of_here]|].
    done.
  - split; [split; [done | intros _; do 2 apply list_elem_of_further; apply list_elem_of_here]|].
    split; [split; [intros H | by intros [_ ?]]|].
    { repeat (apply elem_of_cons in H as [H|H]; [discriminate|]). by apply elem_of_nil in H. }
    split; [split; [done | by intros [_ ?]] | done].
Qed.

(** X17.  Importing the module starts a command exactly on Linux when no
    office suite is found; elsewhere nothing happens, and on Linux with the
    office suite present only the lookup is made. *)
Theorem import_installs_only_when_needed (platform_system : string) (st : State) :
  let run := module_import env platform_system st in
  let found := truthy (which env "soffice") in
  (existsb is_Run (events_since st run.2) = true <->
   platform_system = "Linux" /\ found = false) /\
  (platform_system <> "Linux" -> run = (Return tt, st)) /\
  (platform_system = "Linux" -> found = true ->
   run = (Return tt, after st (world st) [Which "soffice"])) /\
  (platform_system = "Linux" -> found = false ->
   run = install_libreoffice env (after st (world st) [Which "soffice"])).
Proof.
  cbv zeta. unfold module_import.
  destruct (String.eqb_spec platform_system "Linux") as [->|Hp].
  2:{ cbn [snd]. unfold events_since. rewrite drop_all. cbn.
      split; [split; [done | by intros [? _]] | done]. }
  unfold shutil_which, bind, emit, ret. cbn [fst snd world trace uploads].
  fold (after st (world st) [Which "soffice"]).
  destruct (truthy (which env "soffice")) eqn:Hw; cbn [negb].
  - cbn [snd]. rewrite events_since_after. cbn.
    split; [split; [done | by intros [_ ?]] | done].
  - split; [|done]. split; [done|]. intros _.
    rewrite install_libreoffice_run. cbv zeta. cbn [world after].
    destruct (subprocess_exec env apt_update _) as [w1 rc1]. cbn [fst snd].
    destruct (negb (rc1 =? 0)); cbn [snd];
      [by rewrite after_after, events_since_after|].
    destruct (subprocess_exec env apt_install _) as [w2 rc2]. cbn [fst snd].
    destruct (negb (rc2 =? 0)); cbn [snd]; by rewrite after_after, events_since_after.
Qed.

End MoreImport.

(** ** The web form *)

Section MoreForm.

Variable env : Env.



(** One conversion by the form, case by case. *)
Lemma form_run (tmpdir : Path) (name data : string) (st : State) :
  let src := App.joinpath tmpdir (PathOps.of_string name) in
  let target := App.form_target name in
  App.form env tmpdir (Some (name, data)) true st =
    match PathExn.with_suffix src target with
    | inl e => (Raise e, cleaned tmpdir (seeded tmpdir name data st))
    | inr out =>
        let conv := converter env target src out (seeded tmpdir name data st) in
        match conv.1 with
        | Return _ =>
            match files (world conv.2) !! out with
            | Some result =>
                (Return (Some (PathOps.name out, result)), cleaned tmpdir conv.2)
            | None => (Raise (FileNotFoundError out), cleaned tmpdir conv.2)
            end
        | Raise e => (Raise e, cleaned tmpdir conv.2)
        | Pending => (Pending, cleaned tmpdir conv.2)
        end
    end.
Proof.
  cbv zeta. unfold App.form, App.with_tempdir, App.convert_upload, App.write_bytes,
    App.read_bytes, converter, cleaned, seeded.
  unfold bind, get_world, put_world, ret, raise.
  cbn [fst snd world trace uploads].
  destruct (PathExn.with_suffix _ _) as [e|out]; cbn [lift_sum]; unfold ret, raise;
    cbn [fst snd world trace uploads]; [done|].
  match goal with |- context [(if ?b then ?f else ?g) ?s] =>
    destruct ((if b then f else g) s) as [[[]|e|] s2] end;
    cbn [fst snd world trace uploads]; try done.
  by destruct (files (world s2) !! out).
Qed.

Lemma remove_tree_under (d p : Path) (w : World) :
  App.under d p = true ->
  files (App.remove_tree d w) !! p = None /\ p ∉ dirs (App.remove_tree d w).
Proof.
  intros Hu. unfold App.remove_tree. cbn [files dirs]. split.
  - apply map_lookup_filter_None. right. intros x _. cbn. by rewrite Hu.
  - rewrite elem_of_filter. intros [H _]. by rewrite Hu in H.
Qed.

Lemma remove_tree_elsewhere (d p : Path) (w : World) :
  App.under d p = false -> files (App.remove_tree d w) !! p = files w !! p.
Proof.
  intros Hu. unfold App.remove_tree. cbn [files].
  destruct (files w !! p) as [c|] eqn:Hp.
  - by apply map_lookup_filter_Some.
  - apply map_lookup_filter_None. by left.
Qed.

(** X18.  Whatever becomes of the conversion, the form leaves nothing at or
    below its temporary directory, neither the upload nor the result; and
    without an upload or without the button pressed it does nothing. *)
Theorem form_leaves_no_temporary_file (tmpdir : Path) (uploaded : option (string * string))
    (clicked : bool) (st : State) :
  let run := App.form env tmpdir uploaded clicked st in
  (uploaded = None \/ clicked = false -> run = (Return None, st)) /\
  (uploaded <> None -> clicked = true ->
   forall p, App.under tmpdir p = true ->
             files (world run.2) !! p = None /\ p ∉ dirs (world run.2)).
Proof.
  cbv zeta. split.
  - intros [-> | ->]; [done|]. by destruct uploaded as [[name data]|].
  - intros Hup -> p Hp. destruct uploaded as [[name data]|]; [|done].
    rewrite form_run. cbv zeta.
    destruct (PathExn.with_suffix _ _) as [e|out]; [by apply remove_tree_under|].
    destruct (converter env _ _ out _) as [[[]|e|] s2]; cbn [fst snd];
      try by apply remove_tree_under.
    destruct (files (world s2) !! out); by apply remove_tree_under.
Qed.


End MoreForm.

(** ** The further properties on concrete runs *)

Module MoreRuns.

Import Sample Cases.

Lemma docx_to_pdf_tiers_witness :
  let run := convert_docx_to_pdf bare resume_docx output_pdf (start docx_disk) in
  run.1 = Raise (RuntimeError no_soffice_msg) /\
  (Which "soffice" ∈ events_since (start docx_disk) run.2).
Proof.
  cbv zeta.
  pose proof (docx_to_pdf_tiers bare resume_docx output_pdf (start docx_disk) eq_refl)
    as (_ & Hwhich & _ & _ & _).
  split; [reflexivity|]. apply Hwhich. discriminate.
Defined.

Lemma linux_delivers_alike :
  tools_deliver linux resume_docx resume_pdf.
Proof.
  split; [|split; [|split]]; intros w w' H.
  - discriminate.
  - assert (subprocess_exec linux (soffice_argv linux "pdf" resume_docx resume_pdf) w
            = (write resume_pdf "converted" w, 0)) as Hrun by reflexivity.
    rewrite Hrun in H. injection H as <-. exists resume_pdf. split; [reflexivity|].
    cbn [write files]. rewrite lookup_insert_eq. by eauto.
  - assert (subprocess_exec linux (soffice_argv linux "docx" resume_docx resume_pdf) w
            = (write resume_docx "converted" w, 0)) as Hrun by reflexivity.
    rewrite Hrun in H. injection H as <-. exists resume_docx. split; [reflexivity|].
    cbn [write files]. rewrite lookup_insert_eq. by eauto.
  - assert (pdf2docx_convert linux (PathOps.str resume_docx) (PathOps.str resume_pdf) w
            = (write resume_pdf "converted" w, None)) as Hrun by reflexivity.
    rewrite Hrun in H. injection H as <-.
    cbn [write files]. rewrite lookup_insert_eq. by eauto.
Qed.

Lemma linux_delivers_pdf :
  tools_deliver linux resume_pdf output_docx.
Proof.
  split; [|split; [|split]]; intros w w' H.
  - discriminate.
  - assert (subprocess_exec linux (soffice_argv linux "pdf" resume_pdf output_docx) w
            = (write resume_pdf "converted" w, 0)) as Hrun by reflexivity.
    rewrite Hrun in H. injection H as <-. exists resume_pdf. split; [reflexivity|].
    cbn [write files]. rewrite lookup_insert_eq. by eauto.
  - assert (subprocess_exec linux (soffice_argv linux "docx" resume_pdf output_docx) w
            = (write resume_docx "converted" w, 0)) as Hrun by reflexivity.
    rewrite Hrun in H. injection H as <-. exists resume_docx. split; [reflexivity|].
    cbn [write files]. rewrite lookup_insert_eq. by eauto.
  - assert (pdf2docx_convert linux (PathOps.str resume_pdf) (PathOps.str output_docx) w
            = (write output_docx "converted" w, None)) as Hrun by reflexivity.
    rewrite Hrun in H. injection H as <-.
    cbn [write files]. rewrite lookup_insert_eq. by eauto.
Qed.

Lemma docx_success_means_destination_witness :
  is_Some (files (world (convert_docx_to_pdf linux resume_docx resume_pdf
                           (start docx_disk)).2) !! resume_pdf).
Proof.
  apply (docx_success_means_destination linux resume_docx resume_pdf (start docx_disk)
           linux_delivers_alike); reflexivity.
Defined.

Lemma pdf_success_means_destination_witness :
  is_Some (files (world (convert_pdf_to_docx linux resume_pdf output_docx
                           (start pdf_disk)).2) !! output_docx).
Proof.
  apply (pdf_success_means_destination linux resume_pdf output_docx (start pdf_disk)
           linux_delivers_pdf); reflexivity.
Defined.


Lemma main_without_input_witness :
  main linux (mkArgs None None None) ["--verbose"] (start docx_disk) =
    (Raise (ValueError no_input_msg),
     after (start docx_disk) (world (start docx_disk)) (announced ["--verbose"])).
Proof.
  apply (main_without_input linux (mkArgs None None None) ["--verbose"] (start docx_disk));
    reflexivity.
Defined.

Lemma missing_source_raises_witness :
  let args := mkArgs (Some missing_docx) (Some out_upper) (Some to_pdf) in
  main linux args [] (start docx_disk) =
    (Raise (FileNotFoundError missing_docx), routed (start docx_disk) missing_docx) /\
  world (routed (start docx_disk) missing_docx) = world (start docx_disk) /\
  forall e, e ∈ trace (routed (start docx_disk) missing_docx) ->
            conversion_event e = true -> e ∈ trace (start docx_disk).
Proof.
  cbv zeta.
  apply (missing_source_raises linux (mkArgs (Some missing_docx) (Some out_upper) (Some to_pdf))
           [] (start docx_disk) (start docx_disk) missing_docx);
    [reflexivity | by vm_compute].
Defined.

Lemma to_pdf_routed :
  format_router linux to_pdf_args [] (start docx_disk) =
    (Return (resume_docx, default_pdf, ".pdf"), routed (start docx_disk) resume_docx).
Proof. by vm_compute. Qed.

Lemma override_is_redundant_witness :
  ".pdf" = target_ext None (source_ext resume_docx) /\
  main linux (mkArgs (input to_pdf_args) (output to_pdf_args) None) [] (start docx_disk)
  = main linux to_pdf_args [] (start docx_disk).
Proof.
  pose proof (override_is_redundant linux to_pdf_args [] (start docx_disk) _ _ _ _
                to_pdf_routed) as (H1 & _ & _ & _ & H2).
  exact (conj H1 H2).
Defined.

Lemma main_reports_the_conversion_witness :
  let conv := converter linux ".pdf" resume_docx default_pdf
                (routed (start docx_disk) resume_docx) in
  (main linux to_pdf_args [] (start docx_disk)).1 = conv.1 /\
  (Print (saved_msg default_pdf)
     ∈ events_since (routed (start docx_disk) resume_docx)
         (main linux to_pdf_args [] (start docx_disk)).2
   <-> (main linux to_pdf_args [] (start docx_disk)).1 = Return tt).
Proof.
  cbv zeta.
  pose proof (main_reports_the_conversion linux to_pdf_args [] (start docx_disk) _ _ _ _
                to_pdf_routed) as (H1 & _ & _ & H2).
  exact (conj H1 H2).
Defined.

Lemma nameless_output_rejected_witness :
  let args := mkArgs (Some resume_docx) (Some root) None in
  main linux args [] (start docx_disk) =
    (Raise (ValueError ("PosixPath('" +:+ PathOps.str root +:+ "') has an empty name")),
     routed (start docx_disk) resume_docx) /\
  forall e, e ∈ trace (routed (start docx_disk) resume_docx) ->
            conversion_event e = true -> e ∈ trace (start docx_disk).
Proof.
  cbv zeta.
  apply (nameless_output_rejected linux (mkArgs (Some resume_docx) (Some root) None) []
           (start docx_disk) (start docx_disk) resume_docx root);
    [reflexivity | reflexivity | reflexivity | by vm_compute | reflexivity | reflexivity].
Defined.

Lemma router_keeps_source_apart_witness :
  default_pdf <> resume_docx /\
  exists lo, soffice_output resume_docx default_pdf ".pdf" = Some lo /\
             lo <> resume_docx /\ PathOps.suffix lo = ".pdf".
Proof.
  exact (router_keeps_source_apart linux to_pdf_args [] (start docx_disk) _ _ _ _
           to_pdf_routed).
Defined.

Lemma output_path_stable_witness :
  output_path (Some (mkPath true ["w"; "out.pdf"])) (target_ext (Some to_pdf) ".docx")
  = inr (mkPath true ["w"; "out.pdf"]) /\
  forall p, Some (mkPath true ["w"; "out.txt"]) = Some p ->
    PathOps.parent (mkPath true ["w"; "out.pdf"]) = PathOps.parent p /\
    absolute (mkPath true ["w"; "out.pdf"]) = absolute p.
Proof.
  apply (output_path_stable (Some (mkPath true ["w"; "out.txt"])) (Some to_pdf) ".docx"
           (mkPath true ["w"; "out.pdf"])).
  reflexivity.
Defined.

Lemma session_prompted :
  exists st', _prompt_for_file colab session = (Return cv_pdf, st').
Proof. eexists. by vm_compute. Qed.

Lemma prompt_yields_supported_witness :
  supported (source_ext cv_pdf) = true.
Proof.
  destruct session_prompted as [st' H].
  exact (proj1 (proj2 (prompt_yields_supported colab session st' cv_pdf H))).
Defined.

Lemma prompt_takes_first_acceptable_witness :
  let run := _prompt_for_file colab session in
  run.1 = Return (resolve colab (PathOps.of_string "cv.pdf")) /\
  uploads run.2 = [["late.docx"]] /\
  length (filter (fun e => is_Upload e = true) (events_since session run.2)) = 3%nat.
Proof.
  cbv zeta.
  apply (prompt_takes_first_acceptable colab session [[]; ["notes.txt"]] [["late.docx"]]
           "cv.pdf" ["photo.png"]);
    [reflexivity | reflexivity | | reflexivity].
  repeat constructor.
Defined.

Lemma prompt_waits_or_returns_witness :
  (_prompt_for_file colab idle).1 = Pending /\
  uploads (_prompt_for_file colab idle).2 = [].
Proof.
  pose proof (prompt_waits_or_returns colab idle eq_refl) as (Hiff & _ & Hup).
  assert ((_prompt_for_file colab idle).1 = Pending) as Hp.
  { apply Hiff. repeat constructor. }
  exact (conj Hp (Hup Hp)).
Defined.

Lemma install_stops_at_first_failure_witness :
  (install_libreoffice offline (start docx_disk)).1
  = Raise (CalledProcessError 100 apt_update).
Proof.
  apply (proj1 (proj2 (proj2 (proj2
           (install_stops_at_first_failure offline (start docx_disk)))))).
  discriminate.
Defined.

Lemma import_installs_only_when_needed_witness :
  module_import offline "Darwin" (start docx_disk) = (Return tt, start docx_disk) /\
  module_import offline "Linux" (start docx_disk)
  = install_libreoffice offline
      (after (start docx_disk) (world (start docx_disk)) [Which "soffice"]).
Proof.
  split.
  - apply (proj1 (proj2 (import_installs_only_when_needed offline "Darwin"
                            (start docx_disk)))).
    discriminate.
  - apply (proj2 (proj2 (proj2 (import_installs_only_when_needed offline "Linux"
                                   (start docx_disk))))); reflexivity.
Defined.

Lemma form_leaves_no_temporary_file_witness :
  let run := App.form linux tmp (Some ("resume.docx", "docx bytes")) true
               (start docx_disk) in
  files (world run.2) !! mkPath true ["tmp"; "tmpa1b2"; "resume.pdf"] = None /\
  mkPath true ["tmp"; "tmpa1b2"; "resume.pdf"] ∉ dirs (world run.2).
Proof.
  cbv zeta.
  apply (proj2 (form_leaves_no_temporary_file linux tmp
                  (Some ("resume.docx", "docx bytes")) true (start docx_disk)));
    [discriminate | reflexivity | reflexivity].
Defined.



(** A directory at the office suite's output path is renamed like a file:
    with the source [/w/resume.docx/resume.pdf] and an office suite that
    exits with status 0 without writing, [convert_pdf_to_docx] moves the
    directory [/w/resume.docx] to the destination, and the source with it. *)
Lemma directory_output_is_moved :
  let run := convert_pdf_to_docx silent nested_pdf out_docx (start nested_disk) in
  soffice_output nested_pdf out_docx ".docx" = Some resume_docx /\
  run.1 = Return tt /\
  files (world run.2) !! nested_pdf = None /\
  files (world run.2) !! mkPath true ["w"; "out.docx"; "resume.pdf"] = Some "pdf bytes" /\
  bool_decide (out_docx ∈ dirs (world run.2)) = true /\
  bool_decide (resume_docx ∈ dirs (world run.2)) = false /\
  events_since (start nested_disk) run.2 =
    [Mkdir work; Which "soffice";
     Run ["/usr/bin/soffice"; "--headless"; "--convert-to"; "docx"; "--outdir"; "/w";
          "/w/resume.docx/resume.pdf"] true true;
     Exists resume_docx; Rename resume_docx out_docx].
Proof. cbv zeta. repeat split; by vm_compute. Qed.

End MoreRuns.
